(** * Chart-annotation overlay of the JKM frontend: a shallow embedding.

    Sources embedded here:
    - [frontend/src/drawing/types.ts]   shape types, [isValidShape],
                                         [saveDrawings], [loadDrawings];
    - tools module ([toPoint], [distPointToSegment], [hitTest]);
    - renderer module ([drawTrendline], [drawZone], [renderShape]);
    - [frontend/src/components/ChartBoard.tsx]  [buildEngineShapes],
      [fetchData] (time normalisation and sort) and [ws.onmessage],
      [onPointerDown], [onPointerMove], [onPointerUp], [undo],
      [toWebSocketUrl] and the live-feed URL.

    JavaScript numbers are modelled by [num]: a finite value is an exact
    rational, and the three non-finite values NaN, +Infinity and -Infinity
    are kept apart because the code tests for them ([Number.isFinite],
    [typeof], JSON serialisation). Rounding of IEEE doubles is not modelled. *)

From Stdlib Require Import QArith Qabs Lqa Ascii String List Bool ZArith Lia Permutation.
Import ListNotations.
Open Scope string_scope.
Open Scope list_scope.
Set Warnings "-register-all".

(** ** JavaScript numbers *)

Inductive num : Type :=
| Fin (q : Q)
| NaN
| PosInf
| NegInf.

Definition num_of_Z (z : Z) : num := Fin (inject_Z z).

(** [Number.isFinite] on a number. *)
Definition isFinite (n : num) : bool :=
  match n with Fin _ => true | _ => false end.

(** Numeric equality [===] (NaN is not equal to itself). *)
Definition num_eqb (x y : num) : bool :=
  match x, y with
  | Fin a, Fin b => Qeq_bool a b
  | PosInf, PosInf | NegInf, NegInf => true
  | _, _ => false
  end.

Definition num_eq (x y : num) : Prop := num_eqb x y = true.

Definition num_neg (x : num) : num :=
  match x with
  | Fin a => Fin (Qred (- a))
  | NaN => NaN
  | PosInf => NegInf
  | NegInf => PosInf
  end.

Definition num_add (x y : num) : num :=
  match x, y with
  | Fin a, Fin b => Fin (Qred (a + b))
  | NaN, _ | _, NaN => NaN
  | PosInf, NegInf | NegInf, PosInf => NaN
  | PosInf, _ | _, PosInf => PosInf
  | NegInf, _ | _, NegInf => NegInf
  end.

Definition num_sub (x y : num) : num := num_add x (num_neg y).

(** Division (the sign of zero is not modelled). *)
Definition num_div (x y : num) : num :=
  match x, y with
  | Fin a, Fin b =>
      if Qeq_bool b 0 then
        (if Qeq_bool a 0 then NaN else if Qle_bool 0 a then PosInf else NegInf)
      else Fin (Qred (a / b))
  | NaN, _ | _, NaN => NaN
  | Fin _, _ => Fin 0
  | PosInf, Fin b => if Qle_bool 0 b then PosInf else NegInf
  | NegInf, Fin b => if Qle_bool 0 b then NegInf else PosInf
  | _, _ => NaN
  end.

(** The relation [x > y]; false as soon as one side is NaN. *)
Definition num_gt (x y : num) : bool :=
  match x, y with
  | Fin a, Fin b => negb (Qle_bool a b)
  | PosInf, Fin _ | PosInf, NegInf | Fin _, NegInf => true
  | _, _ => false
  end.

(** Truthiness of a number: 0 and NaN are falsy. *)
Definition num_truthy (x : num) : bool :=
  match x with
  | Fin a => negb (Qeq_bool a 0)
  | NaN => false
  | _ => true
  end.

(** ** JavaScript / JSON values *)

Inductive jsval : Type :=
| JUndef
| JNull
| JBool (b : bool)
| JNum (n : num)
| JStr (s : string)
| JArr (l : list jsval)
| JObj (fields : list (string * jsval)).

(** Property read [v.k]: the last binding of [k] wins, as for an object
    built by [JSON.parse]; non-objects have none of the properties read by
    the code. *)
Definition get (k : string) (v : jsval) : jsval :=
  match v with
  | JObj fs => fold_left (fun acc kv => if String.eqb k (fst kv) then snd kv else acc) fs JUndef
  | _ => JUndef
  end.

(** [isObject] of types.ts: [Boolean(value) && typeof value === 'object']. *)
Definition isObject (v : jsval) : bool :=
  match v with JArr _ | JObj _ => true | _ => false end.

Definition is_string (v : jsval) : bool :=
  match v with JStr _ => true | _ => false end.

(** [typeof v === 'number']: true for NaN and the infinities too. *)
Definition is_number (v : jsval) : bool :=
  match v with JNum _ => true | _ => false end.

(** [typeof v === 'number' && Number.isFinite(v)], which is also what
    [Number.isFinite(v)] alone computes on an arbitrary value. *)
Definition is_finite_number (v : jsval) : bool :=
  match v with JNum n => isFinite n | _ => false end.

(** [JSON.parse(JSON.stringify(v))] on a value nested in an object or
    array: non-finite numbers become [null], [undefined] array slots become
    [null] and [undefined] object properties are omitted. *)
Fixpoint json_doc (v : jsval) : jsval :=
  match v with
  | JNum n => if isFinite n then JNum n else JNull
  | JArr l => JArr (map (fun x => match x with JUndef => JNull | _ => json_doc x end) l)
  | JObj fs =>
      JObj ((fix go (fs : list (string * jsval)) : list (string * jsval) :=
               match fs with
               | [] => []
               | (k, JUndef) :: r => go r
               | (k, x) :: r => (k, json_doc x) :: go r
               end) fs)
  | x => x
  end.

(** ** Shapes (types.ts) *)

Record Point : Type := mkPoint { time : num; price : num }.

Inductive TwoPointKind : Type := KTrendline | KZone.

Inductive ShapeGeom : Type :=
| GLevel (price : num)
| GTwo (k : TwoPointKind) (a b : Point).

Record UserShape : Type := mkShape {
  id : string;
  createdAt : num;
  label : option string;
  geom : ShapeGeom
}.

Inductive ShapeKind : Type := KindLevel | KindTrendline | KindZone.

Definition kind (s : UserShape) : ShapeKind :=
  match geom s with
  | GLevel _ => KindLevel
  | GTwo KTrendline _ _ => KindTrendline
  | GTwo KZone _ _ => KindZone
  end.

Definition with_geom (s : UserShape) (g : ShapeGeom) : UserShape :=
  mkShape (id s) (createdAt s) (label s) g.

Definition kind_string (k : ShapeKind) : string :=
  match k with
  | KindLevel => "level"
  | KindTrendline => "trendline"
  | KindZone => "zone"
  end.

Definition point_to_js (p : Point) : jsval :=
  JObj [("time", JNum (time p)); ("price", JNum (price p))].

(** The JavaScript object of a shape; an absent [label] is no property. *)
Definition shape_to_js (s : UserShape) : jsval :=
  JObj ([("id", JStr (id s)); ("kind", JStr (kind_string (kind s)));
         ("createdAt", JNum (createdAt s))]
        ++ match label s with Some l => [("label", JStr l)] | None => [] end
        ++ match geom s with
           | GLevel p => [("price", JNum p)]
           | GTwo _ a b => [("a", point_to_js a); ("b", point_to_js b)]
           end).

(** ** Persistence (types.ts: [isValidShape], [saveDrawings], [loadDrawings]) *)

Definition is_kind_string (v : jsval) : bool :=
  match v with
  | JStr k => String.eqb k "level" || String.eqb k "trendline" || String.eqb k "zone"
  | _ => false
  end.

Definition is_level_string (v : jsval) : bool :=
  match v with JStr k => String.eqb k "level" | _ => false end.

Definition isValidShape (value : jsval) : bool :=
  if negb (isObject value) then false
  else if negb (is_kind_string (get "kind" value)) then false
  else if negb (is_string (get "id" value)) then false
  else if negb (is_number (get "createdAt" value)) then false
  else if is_level_string (get "kind" value) then is_finite_number (get "price" value)
  else
    let a := get "a" value in
    let b := get "b" value in
    isObject a && isObject b
    && is_number (get "time" a) && is_number (get "price" a)
    && is_number (get "time" b) && is_number (get "price" b).

(** The item under the storage key, as [localStorage.getItem] and
    [JSON.parse] see it: no item, the empty string, a text that is not JSON
    (or an access error: both make the [try] block throw), or a JSON text
    denoting a document. *)
Inductive stored : Type :=
| RawAbsent
| RawEmpty
| RawThrows
| RawJson (doc : jsval).

Definition STORAGE_KEY : string := "jkm_chart_drawings_v1".

(** [saveDrawings]: [JSON.stringify({version: 1, savedAt, shapes})]. *)
Definition saveDrawings (savedAt : num) (shapes : list UserShape) : stored :=
  RawJson (json_doc (JObj [("version", JNum (Fin 1)); ("savedAt", JNum savedAt);
                           ("shapes", JArr (map shape_to_js shapes))])).

Definition is_version_1 (v : jsval) : bool :=
  match v with JNum n => num_eqb n (Fin 1) | _ => false end.

(** [loadDrawings] *)
Definition loadDrawings (raw : stored) : list jsval :=
  match raw with
  | RawAbsent | RawEmpty | RawThrows => []
  | RawJson parsed =>
      if negb (isObject parsed) || negb (is_version_1 (get "version" parsed)) then []
      else match get "shapes" parsed with
           | JArr l => filter isValidShape l
           | _ => []
           end
  end.

(** The JSON serialisation keeps a shape exactly when all its numbers are
    finite. *)
Definition shape_finite (s : UserShape) : bool :=
  isFinite (createdAt s) &&
  match geom s with
  | GLevel p => isFinite p
  | GTwo _ a b => isFinite (time a) && isFinite (price a)
                  && isFinite (time b) && isFinite (price b)
  end.

(** The version-1 envelope with an array [shapes] accepted by
    [loadDrawings]; [None] in every other case. *)
Definition envelope_shapes (raw : stored) : option (list jsval) :=
  match raw with
  | RawJson parsed =>
      if isObject parsed && is_version_1 (get "version" parsed) then
        match get "shapes" parsed with JArr l => Some l | _ => None end
      else None
  | _ => None
  end.

(** The structural conditions listed for stored entries, property by
    property. *)
Definition endpoint_ok (p : jsval) : Prop :=
  isObject p = true /\ is_number (get "time" p) = true /\ is_number (get "price" p) = true.

Definition structurally_valid (x : jsval) : Prop :=
  isObject x = true /\
  is_kind_string (get "kind" x) = true /\
  (exists i, get "id" x = JStr i) /\
  (exists c, get "createdAt" x = JNum c) /\
  (get "kind" x = JStr "level" -> exists p, get "price" x = JNum (Fin p)) /\
  (get "kind" x <> JStr "level" -> endpoint_ok (get "a" x) /\ endpoint_ok (get "b" x)).

(** Sample stored items. *)
Definition sample_level_js : jsval :=
  JObj [("id", JStr "lvl_1"); ("kind", JStr "level"); ("createdAt", JNum (Fin 1));
        ("price", JNum (Fin 100))].

Definition sample_trendline_no_b_price : jsval :=
  JObj [("id", JStr "tl_1"); ("kind", JStr "trendline"); ("createdAt", JNum (Fin 2));
        ("a", JObj [("time", JNum (Fin 1000)); ("price", JNum (Fin 1))]);
        ("b", JObj [("time", JNum (Fin 2000))])].

Definition sample_envelope : jsval :=
  JObj [("version", JNum (Fin 1)); ("savedAt", JNum (Fin 0));
        ("shapes", JArr [sample_level_js; sample_trendline_no_b_price])].

(** A trendline whose first endpoint lies at +Infinity on the time axis. *)
Definition trendline_inf : UserShape :=
  mkShape "tl_inf" (Fin 0) None (GTwo KTrendline (mkPoint PosInf (Fin 1)) (mkPoint (Fin 2) (Fin 1))).

(** A level at price +Infinity. *)
Definition level_inf : UserShape :=
  mkShape "lvl_inf" (Fin 0) None (GLevel PosInf).

(** ** Coordinate bridge and hit testing (tools module) *)

Record Pointer : Type := mkPointer { px : Q; py : Q }.

(** [ToolContext]: the four conversions of the chart viewport, each
    returning [None] outside the valid domain. *)
Record ToolContext : Type := mkToolContext {
  xToTime : Q -> option num;
  yToPrice : Q -> option num;
  timeToX : num -> option Q;
  priceToY : num -> option Q
}.

Definition toPoint (ctx : ToolContext) (p : Pointer) : option Point :=
  match xToTime ctx (px p), yToPrice ctx (py p) with
  | Some t, Some pr => Some (mkPoint t pr)
  | _, _ => None
  end.

(** [Math.min] / [Math.max] on numbers. *)
Definition num_min (x y : num) : num :=
  match x, y with
  | NaN, _ | _, NaN => NaN
  | _, _ => if num_gt x y then y else x
  end.

Definition num_max (x y : num) : num :=
  match x, y with
  | NaN, _ | _, NaN => NaN
  | _, _ => if num_gt y x then y else x
  end.

Definition Qmin' (a b : Q) : Q := if Qle_bool a b then a else b.
Definition Qmax' (a b : Q) : Q := if Qle_bool a b then b else a.

(** [distPointToSegment], squared: the code returns [Math.sqrt] of this
    quantity and compares it with the threshold, which for a non-negative
    quantity is the comparison of the square with the squared threshold.
    Pixel arithmetic is exact here (rationals), where the code rounds each
    step to a double; results about the hit test are results about that
    exact arithmetic. *)
Definition distSqPointToSegment (px py ax ay bx by0 : Q) : Q :=
  let abx := bx - ax in
  let aby := by0 - ay in
  let apx := px - ax in
  let apy := py - ay in
  let denom := abx * abx + aby * aby in
  let t := if Qeq_bool denom 0 then 0 else Qmax' 0 (Qmin' 1 ((apx * abx + apy * aby) / denom)) in
  let cx := ax + t * abx in
  let cy := ay + t * aby in
  let dx := px - cx in
  let dy := py - cy in
  dx * dx + dy * dy.

Definition threshold : Q := 8.

(** The per-shape test inside the loop of [hitTest]. *)
Definition hitShape (ctx : ToolContext) (p : Pointer) (s : UserShape) : bool :=
  match geom s with
  | GLevel pr =>
      match priceToY ctx pr with
      | None => false
      | Some y => Qle_bool (Qabs (py p - y)) threshold
      end
  | GTwo KTrendline a b =>
      match timeToX ctx (time a), priceToY ctx (price a),
            timeToX ctx (time b), priceToY ctx (price b) with
      | Some ax, Some ay, Some bx, Some by0 =>
          Qle_bool (distSqPointToSegment (px p) (py p) ax ay bx by0) (threshold * threshold)
      | _, _, _, _ => false
      end
  | GTwo KZone a b =>
      match timeToX ctx (num_min (time a) (time b)), timeToX ctx (num_max (time a) (time b)),
            priceToY ctx (num_min (price a) (price b)), priceToY ctx (num_max (price a) (price b)) with
      | Some x1, Some x2, Some y1, Some y2 =>
          let left := Qmin' x1 x2 in
          let right := Qmax' x1 x2 in
          let top := Qmin' y1 y2 in
          let bottom := Qmax' y1 y2 in
          Qle_bool left (px p) && Qle_bool (px p) right
          && Qle_bool top (py p) && Qle_bool (py p) bottom
      | _, _, _, _ => false
      end
  end.

(** [hitTest] scans from the last shape to the first. *)
Fixpoint hitTest_from_top (ctx : ToolContext) (p : Pointer) (l : list UserShape) : option string :=
  match l with
  | [] => None
  | s :: r => if hitShape ctx p s then Some (id s) else hitTest_from_top ctx p r
  end.

Definition hitTest (shapes : list UserShape) (ctx : ToolContext) (p : Pointer) : option string :=
  hitTest_from_top ctx p (rev shapes).

(** ** Board state and pointer handlers (ChartBoard.tsx) *)

Inductive ToolId : Type := ToolSelect | ToolLevel | ToolTrendline | ToolZone.

Inductive EngineColor : Type := Gold | Green.

(** An engine shape: a shape with [readonly: true] and a colour tag. *)
Record EngineShape : Type := mkEngineShape { eng_shape : UserShape; color : EngineColor }.

Inductive InteractionState : Type :=
| ModeNone
| ModeDrawing (tool : TwoPointKind) (start : Pointer)
| ModeDragging (drag_id : string) (start : Pointer) (original : UserShape).

(** The component state: [interactionRef] and the React state the handlers
    read and write; [nonce] counts the identifiers drawn by [newId]. *)
Record Board : Type := mkBoard {
  interaction : InteractionState;
  tool : ToolId;
  userShapes : list UserShape;
  engineShapes : list EngineShape;
  draftShape : option UserShape;
  selectedId : option string;
  nonce : nat
}.

Definition set_interaction (m : InteractionState) (st : Board) : Board :=
  mkBoard m (tool st) (userShapes st) (engineShapes st) (draftShape st) (selectedId st) (nonce st).
Definition set_userShapes (l : list UserShape) (st : Board) : Board :=
  mkBoard (interaction st) (tool st) l (engineShapes st) (draftShape st) (selectedId st) (nonce st).
Definition set_draftShape (d : option UserShape) (st : Board) : Board :=
  mkBoard (interaction st) (tool st) (userShapes st) (engineShapes st) d (selectedId st) (nonce st).
Definition set_selectedId (sel : option string) (st : Board) : Board :=
  mkBoard (interaction st) (tool st) (userShapes st) (engineShapes st) (draftShape st) sel (nonce st).
Definition bump_nonce (st : Board) : Board :=
  mkBoard (interaction st) (tool st) (userShapes st) (engineShapes st) (draftShape st) (selectedId st) (S (nonce st)).

Section Handlers.

(** [newId(prefix)] (a random suffix and the clock) and [Date.now()]. *)
Variable newId : string -> nat -> string.
Variable now_ms : num.

(** [ctxObj] is [toolCtx]: [None] until the chart is ready. *)
Definition onPointerDown (ctxObj : option ToolContext) (p : Pointer) (st : Board) : Board :=
  match ctxObj with
  | None => st
  | Some c =>
      match tool st with
      | ToolLevel =>
          match yToPrice c (py p) with
          | None => st
          | Some pr =>
              let s := mkShape (newId "lvl" (nonce st)) now_ms None (GLevel pr) in
              bump_nonce (set_selectedId (Some (id s)) (set_userShapes (userShapes st ++ [s]) st))
          end
      | ToolTrendline | ToolZone =>
          let k := match tool st with ToolTrendline => KTrendline | _ => KZone end in
          match toPoint c p with
          | None => st
          | Some sp =>
              let pre := match k with KTrendline => "tl" | KZone => "zone" end in
              let s := mkShape (newId pre (nonce st)) now_ms None (GTwo k sp sp) in
              bump_nonce (set_selectedId None (set_draftShape (Some s)
                (set_interaction (ModeDrawing k p) st)))
          end
      | ToolSelect =>
          match hitTest (userShapes st) c p with
          | None => set_interaction ModeNone (set_selectedId None st)
          | Some hid =>
              match find (fun s => String.eqb (id s) hid) (userShapes st) with
              | None => st
              | Some shape =>
                  set_interaction (ModeDragging (id shape) p shape)
                    (set_selectedId (Some (id shape)) st)
              end
          end
      end
  end.

End Handlers.

(** The translated copy of the original snapshot written back by a drag. *)
Definition shift_point (dt dp : num) (q : Point) : Point :=
  mkPoint (num_add (time q) dt) (num_add (price q) dp).

Definition drag_translate (o : UserShape) (dt dp : num) : UserShape :=
  match geom o with
  | GLevel pr => with_geom o (GLevel (num_add pr dp))
  | GTwo k a b => with_geom o (GTwo k (shift_point dt dp a) (shift_point dt dp b))
  end.

Definition set_endpoint_b (pt : Point) (prev : UserShape) : UserShape :=
  match geom prev with
  | GTwo k a _ => with_geom prev (GTwo k a pt)
  | GLevel _ => prev
  end.

Definition onPointerMove (ctxObj : option ToolContext) (p : Pointer) (st : Board) : Board :=
  match ctxObj with
  | None => st
  | Some c =>
      match interaction st with
      | ModeDrawing _ _ =>
          match toPoint c p with
          | None => st
          | Some pt => set_draftShape (option_map (set_endpoint_b pt) (draftShape st)) st
          end
      | ModeDragging d start o =>
          match toPoint c start, toPoint c p with
          | Some startPt, Some nowPt =>
              let dt := num_sub (time nowPt) (time startPt) in
              let dp := num_sub (price nowPt) (price startPt) in
              set_userShapes
                (map (fun s => if String.eqb (id s) d then drag_translate o dt dp else s)
                     (userShapes st)) st
          | _, _ => st
          end
      | ModeNone => st
      end
  end.

Definition onPointerUp (ctxObj : option ToolContext) (p : Pointer) (st : Board) : Board :=
  match ctxObj with
  | None => st
  | Some c =>
      match interaction st with
      | ModeDrawing _ _ =>
          match toPoint c p with
          | None => set_interaction ModeNone (set_draftShape None st)
          | Some endPoint =>
              match draftShape st with
              | None => set_interaction ModeNone st
              | Some prev =>
                  let finalized := set_endpoint_b endPoint prev in
                  set_interaction ModeNone
                    (set_draftShape None
                       (set_selectedId (Some (id finalized))
                          (set_userShapes (userShapes st ++ [finalized]) st)))
              end
          end
      | _ => set_interaction ModeNone st
      end
  end.

Definition undo (st : Board) : Board :=
  set_selectedId None (set_userShapes (removelast (userShapes st)) st).

(** A sample viewport: times on [0, 1000] map to x = time, prices on
    [0, 500] map to y = price; outside these ranges the bridge yields
    [None]. *)
Definition in_range (lo hi q : Q) : bool := Qle_bool lo q && Qle_bool q hi.

Definition sample_ctx : ToolContext :=
  mkToolContext
    (fun x => if in_range 0 1000 x then Some (Fin x) else None)
    (fun y => if in_range 0 500 y then Some (Fin y) else None)
    (fun t => match t with Fin q => if in_range 0 1000 q then Some q else None | _ => None end)
    (fun p => match p with Fin q => if in_range 0 500 q then Some q else None | _ => None end).

Definition sample_zone : UserShape :=
  mkShape "zone_1" (Fin 5) (Some "range")
    (GTwo KZone (mkPoint (Fin 100) (Fin 200)) (mkPoint (Fin 300) (Fin 250))).

Definition sample_level : UserShape :=
  mkShape "lvl_1" (Fin 4) None (GLevel (Fin 100)).

Definition drag_board : Board :=
  mkBoard (ModeDragging "zone_1" (mkPointer 150 220) sample_zone) ToolSelect
    [sample_level; sample_zone] [] None (Some "zone_1") 0.

Definition draft_trendline : UserShape :=
  mkShape "tl_1" (Fin 7) None (GTwo KTrendline (mkPoint (Fin 100) (Fin 100)) (mkPoint (Fin 150) (Fin 120))).

Definition drawing_board : Board :=
  mkBoard (ModeDrawing KTrendline (mkPointer 100 100)) ToolTrendline [sample_level] []
    (Some draft_trendline) None 1.

(** A viewport where price 100 sits at y = 50 (y = price / 2). *)
Definition level_ctx : ToolContext :=
  mkToolContext
    (fun x => Some (Fin x))
    (fun y => Some (Fin (Qred (2 * y))))
    (fun t => match t with Fin q => Some q | _ => None end)
    (fun p => match p with Fin q => Some (Qred (q / 2)) | _ => None end).

(** ** Live data feed (ChartBoard.tsx: [fetchData], [ws.onmessage]) *)

Record Candle : Type := mkCandle {
  c_time : num; c_open : jsval; c_high : jsval; c_low : jsval; c_close : jsval
}.

Definition with_time (c : Candle) (t : num) : Candle :=
  mkCandle t (c_open c) (c_high c) (c_low c) (c_close c).

(** [if (t > 2000000000) t = t / 1000] on a numeric time. *)
Definition normalize_ms (t : num) : num :=
  if num_gt t (Fin 2000000000) then num_div t (Fin 1000) else t.

(** A time value as [fetchData] receives it; [parse_ms] stands for
    [new Date(t).getTime()] on a string. *)
Inductive TimeIn : Type := TNum (n : num) | TStr (s : string).

Definition fetch_time (parse_ms : string -> num) (t : TimeIn) : num :=
  let t0 := match t with TStr s => num_div (parse_ms s) (Fin 1000) | TNum n => n end in
  normalize_ms t0.

Fixpoint last_opt {A : Type} (l : list A) : option A :=
  match l with
  | [] => None
  | [x] => Some x
  | _ :: r => last_opt r
  end.

(** [ws.onmessage] on a candle with a numeric time: normalise the time and
    pass the candle to [seriesRef.current.update(c)], then overwrite the
    last buffered candle when the times are equal ([===]) or append. The
    series holds the same bars as the buffer (both are set from the same
    history and fed the same ticks), and [update] throws on a bar older
    than the series' last one ("Cannot update oldest data"); the [catch]
    then skips the merge and the buffer is left as it was. *)
Definition ws_onmessage (buf : list Candle) (d : Candle) : list Candle :=
  let c := with_time d (normalize_ms (c_time d)) in
  match last_opt buf with
  | Some last =>
      if num_gt (c_time last) (c_time c) then buf
      else if num_eqb (c_time last) (c_time c) then removelast buf ++ [c] else buf ++ [c]
  | None => buf ++ [c]
  end.

(** ** Engine annotations ([buildEngineShapes]) *)

Record EngineLevel : Type := mkEngineLevel { lvl_price : jsval; lvl_label : option string }.

Record EngineZone : Type :=
  mkEngineZone { priceFrom : jsval; priceTo : jsval; zone_label : option string }.

Record EngineAnnotations : Type := mkEngineAnnotations {
  levels : option (list EngineLevel);
  zones : option (list EngineZone);
  fiboZones : option (list EngineZone)
}.

Section Engine.

(** [newId(prefix)], here indexed by the number of shapes pushed so far,
    and [Date.now()]. The code calls [nowSec()] twice, once for each
    anchor: [nowSec1] is the reading taken for [t1], [nowSec2] the one
    taken for [t2]. *)
Variable newId : string -> nat -> string.
Variable now_ms : num.
Variable nowSec1 nowSec2 : Z.

Fixpoint build_levels (n : nat) (l : list EngineLevel) : list EngineShape :=
  match l with
  | [] => []
  | lvl :: r =>
      match lvl_price lvl with
      | JNum (Fin q) =>
          mkEngineShape (mkShape (newId "eng_lvl" n) now_ms (lvl_label lvl) (GLevel (Fin q))) Gold
            :: build_levels (S n) r
      | _ => build_levels n r
      end
  end.

Fixpoint build_zones (pre : string) (col : EngineColor) (t1 t2 : num) (n : nat)
    (l : list EngineZone) : list EngineShape :=
  match l with
  | [] => []
  | z :: r =>
      match priceFrom z, priceTo z with
      | JNum (Fin f), JNum (Fin t) =>
          mkEngineShape (mkShape (newId pre n) now_ms (zone_label z)
                           (GTwo KZone (mkPoint t1 (Fin f)) (mkPoint t2 (Fin t)))) col
            :: build_zones pre col t1 t2 (S n) r
      | _, _ => build_zones pre col t1 t2 n r
      end
  end.

Definition buildEngineShapes (data : list Candle) (ann : EngineAnnotations) : list EngineShape :=
  let t1 := match data with
            | c :: _ => if num_truthy (c_time c) then c_time c else num_of_Z (nowSec1 - 3600)
            | [] => num_of_Z (nowSec1 - 3600)
            end in
  let t2 := match last_opt data with
            | Some c => if num_truthy (c_time c) then c_time c else num_of_Z nowSec2
            | None => num_of_Z nowSec2
            end in
  let lv := build_levels 0 (match levels ann with Some l => l | None => [] end) in
  let zs := build_zones "eng_zone" Green t1 t2 (length lv)
              (match zones ann with Some l => l | None => [] end) in
  let fz := build_zones "eng_fibo" Gold t1 t2 (length lv + length zs)
              (match fiboZones ann with Some l => l | None => [] end) in
  lv ++ zs ++ fz.

End Engine.

Definition candle_at (t : Q) : Candle := mkCandle (Fin t) JNull JNull JNull JNull.

Definition spec_annotations : EngineAnnotations :=
  mkEngineAnnotations (Some [mkEngineLevel (JNum (Fin (12345 # 10000))) None])
    (Some [mkEngineZone (JNum (Fin 1)) (JNum (Fin (11 # 10))) None]) None.

Definition zone_annotations : EngineAnnotations :=
  mkEngineAnnotations None (Some [mkEngineZone (JNum (Fin 1)) (JNum (Fin (11 # 10))) None]) None.

Definition prefix_id (pre : string) (_ : nat) : string := pre.

(** ** Overlay renderer: canvas calls as a command list *)

Inductive CanvasCmd : Type :=
| BeginPath
| MoveTo (x y : Q)
| LineTo (x y : Q)
| RectPath (x y w h : Q)
| FillPath
| StrokePath
| SetStrokeStyle (c : string)
| SetFillStyle (c : string)
| SetLineWidth (w : Q)
| SetFont (f : string)
| FillText (t : string) (x y : Q)
| SaveCtx
| RestoreCtx.

Record CoordinateFns : Type := mkCoordinateFns {
  cf_timeToX : num -> option Q;
  cf_priceToY : num -> option Q
}.

Record RenderStyle : Type := mkRenderStyle {
  st_user : string; st_engineGold : string; st_engineGreen : string; st_selected : string
}.

Definition HIT_LINE_WIDTH : Q := 2.

Definition drawLabel (x y : Q) (text color : string) : list CanvasCmd :=
  [SaveCtx; SetFont "12px system-ui, -apple-system, Segoe UI, Roboto, sans-serif";
   SetFillStyle color; FillText text x y; RestoreCtx].

Definition drawLevel (y width : Q) (color : string) : list CanvasCmd :=
  [BeginPath; MoveTo 0 y; LineTo width y; SetStrokeStyle color;
   SetLineWidth HIT_LINE_WIDTH; StrokePath].

Definition drawTrendline (ax ay bx by0 : Q) (color : string) : list CanvasCmd :=
  [BeginPath; MoveTo ax ay; LineTo bx by0; SetStrokeStyle color;
   SetLineWidth HIT_LINE_WIDTH; StrokePath].

Definition drawZone (x1 y1 x2 y2 : Q) (stroke fill : string) : list CanvasCmd :=
  let left := Qmin' x1 x2 in
  let right := Qmax' x1 x2 in
  let top := Qmin' y1 y2 in
  let bottom := Qmax' y1 y2 in
  let w := Qmax' 1 (right - left) in
  let h := Qmax' 1 (bottom - top) in
  [SetFillStyle fill; SetStrokeStyle stroke; SetLineWidth 2; BeginPath;
   RectPath left top w h; FillPath; StrokePath].

(** [renderShape]; [engine] is [Some colour] for an engine shape. *)
Definition renderShape (coords : CoordinateFns) (shape : UserShape) (engine : option EngineColor)
    (width : Q) (selected : bool) (style : RenderStyle) : list CanvasCmd :=
  let baseColor := match engine with
                   | Some Green => st_engineGreen style
                   | Some Gold => st_engineGold style
                   | None => st_user style
                   end in
  let color := if selected then st_selected style else baseColor in
  (* [if (shape.label)]: an absent or empty label is not drawn *)
  let labelCmds (x y : Q) :=
    match label shape with
    | Some l => if String.eqb l "" then [] else drawLabel x y l color
    | None => []
    end in
  match geom shape with
  | GLevel pr =>
      match cf_priceToY coords pr with
      | None => []
      | Some y => drawLevel y width color ++ labelCmds 10 (Qmax' 14 (y - 8))
      end
  | GTwo KTrendline a b =>
      match cf_timeToX coords (time a), cf_priceToY coords (price a),
            cf_timeToX coords (time b), cf_priceToY coords (price b) with
      | Some ax, Some ay, Some bx, Some by0 =>
          drawTrendline ax ay bx by0 color ++ labelCmds (bx + 8) by0
      | _, _, _, _ => []
      end
  | GTwo KZone a b =>
      match cf_timeToX coords (num_min (time a) (time b)), cf_timeToX coords (num_max (time a) (time b)),
            cf_priceToY coords (num_min (price a) (price b)), cf_priceToY coords (num_max (price a) (price b)) with
      | Some x1, Some x2, Some y1, Some y2 =>
          let fill := match engine with
                      | Some Green => "rgba(34, 197, 94, 0.18)"
                      | Some Gold => "rgba(245, 197, 66, 0.18)"
                      | None => "rgba(255, 255, 255, 0.10)"
                      end in
          drawZone x1 y1 x2 y2 color fill ++ labelCmds (Qmin' x1 x2 + 10) (Qmin' y1 y2 + 18)
      | _, _, _, _ => []
      end
  end.

Definition sample_style : RenderStyle :=
  mkRenderStyle "rgba(255,255,255,0.86)" "#f5c542" "#22c55e" "#f5c542".

(** Times map to x = time / 10, prices to y = price / 2. *)
Definition sample_coords : CoordinateFns :=
  mkCoordinateFns
    (fun t => match t with Fin q => Some (Qred (q / 10)) | _ => None end)
    (fun p => match p with Fin q => Some (Qred (q / 2)) | _ => None end).

Definition degenerate_trendline : UserShape :=
  mkShape "tl_0" (Fin 1) None (GTwo KTrendline (mkPoint (Fin 1000) (Fin 100)) (mkPoint (Fin 1000) (Fin 100))).

Definition degenerate_zone : UserShape :=
  mkShape "zone_0" (Fin 1) None (GTwo KZone (mkPoint (Fin 1000) (Fin 100)) (mkPoint (Fin 1000) (Fin 100))).

Definition tool_of_kind (k : TwoPointKind) : ToolId :=
  match k with KTrendline => ToolTrendline | KZone => ToolZone end.

Definition id_prefix (k : TwoPointKind) : string :=
  match k with KTrendline => "tl" | KZone => "zone" end.

Definition idle_board (t : ToolId) : Board :=
  mkBoard ModeNone t [sample_level] [] None None 3.

(** Candle times strictly increase along the buffer (as [num_gt]). *)
Fixpoint times_ascending (l : list Candle) : bool :=
  match l with
  | x :: ((y :: _) as r) => num_gt (c_time y) (c_time x) && times_ascending r
  | _ => true
  end.

Definition sample_candle (t : num) : Candle :=
  mkCandle t (JNum (Fin 1)) (JNum (Fin 2)) (JNum (Fin 0)) (JNum (Fin 1)).








Definition mixed_annotations : EngineAnnotations :=
  mkEngineAnnotations
    (Some [mkEngineLevel (JNum (Fin 2)) None; mkEngineLevel (JStr "2") None;
           mkEngineLevel (JNum NaN) None])
    (Some [mkEngineZone (JNum (Fin 1)) (JNum PosInf) None; mkEngineZone (JNum (Fin 1)) (JNum (Fin 3)) None])
    (Some [mkEngineZone (JNum (Fin (618 # 1000))) (JNum (Fin (786 # 1000))) (Some "fib")]).

(** ** Connection helpers (ChartBoard.tsx: [toWebSocketUrl]) *)

(** ASCII case folding, as the [i] flag of a regular expression applies it
    to ASCII letters. *)
Definition lower_ascii (c : Ascii.ascii) : Ascii.ascii :=
  let n := Ascii.nat_of_ascii c in
  if Nat.leb 65 n && Nat.leb n 90 then Ascii.ascii_of_nat (n + 32)%nat else c.

Fixpoint lower_string (s : string) : string :=
  match s with
  | EmptyString => EmptyString
  | String c r => String (lower_ascii c) (lower_string r)
  end.

(** Matching of [/^pre/i] for a lower-case literal [pre]: [Some rest] with
    the text after the match, or [None]. *)
Fixpoint strip_prefix_ci (pre s : string) : option string :=
  match pre, s with
  | EmptyString, _ => Some s
  | String p pre', String c s' => if Ascii.eqb p (lower_ascii c) then strip_prefix_ci pre' s' else None
  | String _ _, EmptyString => None
  end.

(** [s.replace(/^pre/i, repl)]. *)
Definition replace_prefix_ci (pre repl s : string) : string :=
  match strip_prefix_ci pre s with
  | Some rest => String.append repl rest
  | None => s
  end.

Definition toWebSocketUrl (httpUrl : string) : string :=
  replace_prefix_ci "https://" "wss://" (replace_prefix_ci "http://" "ws://" httpUrl).

(** [s.replace(/\/$/, '')]: one trailing slash is removed. *)
Fixpoint strip_trailing_slash (s : string) : string :=
  match s with
  | EmptyString => EmptyString
  | String c EmptyString => if Ascii.eqb c "/"%char then EmptyString else s
  | String c r => String c (strip_trailing_slash r)
  end.

(** The WebSocket URL of the live feed, from [buildApiUrl('')] ([apiBase]). *)
Definition ws_url (apiBase symbol : string) : string :=
  String.append (strip_trailing_slash (toWebSocketUrl apiBase))
    (String.append "/ws/markets/" symbol).

(** A viewport whose conversions read only the numeric value of their
    argument, as the chart library's do. *)
Definition plain_ctx : ToolContext :=
  mkToolContext
    (fun x => Some (Fin x)) (fun y => Some (Fin y))
    (fun t => match t with Fin q => Some (Qred q) | _ => None end)
    (fun p => match p with Fin q => Some (Qred q) | _ => None end).

(** The three pointer handlers of the overlay, as one event stream. *)
Inductive PointerEv : Type :=
| PDown (p : Pointer)
| PMove (p : Pointer)
| PUp (p : Pointer).

Definition dispatch (newId : string -> nat -> string) (now_ms : num) (ctxObj : option ToolContext)
    (e : PointerEv) (st : Board) : Board :=
  match e with
  | PDown p => onPointerDown newId now_ms ctxObj p st
  | PMove p => onPointerMove ctxObj p st
  | PUp p => onPointerUp ctxObj p st
  end.

Definition run_events (newId : string -> nat -> string) (now_ms : num) (ctxObj : option ToolContext)
    (es : list PointerEv) (st : Board) : Board :=
  fold_left (fun st e => dispatch newId now_ms ctxObj e st) es st.

(** No drawing gesture in progress, and a drag carries the shape it moves. *)
Definition not_drawing (m : InteractionState) : Prop :=
  match m with
  | ModeNone => True
  | ModeDrawing _ _ => False
  | ModeDragging d _ o => id o = d
  end.

(** The selection is empty or names a stored shape. *)
Definition selection_ok (st : Board) : Prop :=
  match selectedId st with
  | None => True
  | Some i => In i (map id (userShapes st))
  end.

Definition select_board : Board :=
  mkBoard ModeNone ToolSelect [sample_level; sample_zone] [] None (Some "zone_1") 0.

(** An element of the [/candles] response, before formatting. *)
Record RawCandle : Type := mkRawCandle {
  r_time : TimeIn; r_open : jsval; r_high : jsval; r_low : jsval; r_close : jsval
}.

(** The [data.map] step of [fetchData]. *)
Definition format_candle (parse_ms : string -> num) (d : RawCandle) : Candle :=
  mkCandle (fetch_time parse_ms (r_time d)) (r_open d) (r_high d) (r_low d) (r_close d).

(** [.sort((a, b) => a.time - b.time)]: a stable sort that puts [a] after
    [b] when the comparator is positive. On finite times the comparator is
    consistent and the stable order is unique; insertion sort computes it. *)
Fixpoint insert_by_time (c : Candle) (l : list Candle) : list Candle :=
  match l with
  | [] => [c]
  | x :: r => if num_gt (num_sub (c_time c) (c_time x)) (Fin 0) then x :: insert_by_time c r else c :: l
  end.

Fixpoint sort_by_time (l : list Candle) : list Candle :=
  match l with
  | [] => []
  | x :: r => insert_by_time x (sort_by_time r)
  end.

Definition fetchData_candles (parse_ms : string -> num) (data : list RawCandle) : list Candle :=
  sort_by_time (map (format_candle parse_ms) data).

(** Candle times never decrease along the list. *)
Fixpoint times_nondecreasing (l : list Candle) : bool :=
  match l with
  | x :: ((y :: _) as r) => negb (num_gt (c_time x) (c_time y)) && times_nondecreasing r
  | _ => true
  end.

Definition raw_at (t : TimeIn) : RawCandle := mkRawCandle t JNull JNull JNull JNull.

Definition is_down (e : PointerEv) : bool := match e with PDown _ => true | _ => false end.

(** * Proofs *)

Lemma json_doc_num (n : num) :
  json_doc (JNum n) = if isFinite n then JNum n else JNull.
Proof. reflexivity. Qed.

Lemma is_number_doc (n : num) :
  is_number (if isFinite n then JNum n else JNull) = isFinite n.
Proof. destruct (isFinite n); reflexivity. Qed.

Lemma is_finite_number_doc (n : num) :
  is_finite_number (if isFinite n then JNum n else JNull) = isFinite n.
Proof. destruct (isFinite n) eqn:E; [exact E|reflexivity]. Qed.

Lemma valid_json_shape (s : UserShape) :
  isValidShape (json_doc (shape_to_js s)) = shape_finite s.
Proof.
  destruct s as [i c l [p | k [t1 p1] [t2 p2]]]; unfold shape_finite.
  - destruct l; cbn; rewrite ?is_number_doc, ?is_finite_number_doc;
      destruct (isFinite c), (isFinite p); reflexivity.
  - destruct k, l; cbn; rewrite ?is_number_doc;
      destruct (isFinite c), (isFinite t1), (isFinite p1), (isFinite t2), (isFinite p2);
      reflexivity.
Qed.

Lemma json_doc_shape_finite (s : UserShape) :
  shape_finite s = true -> json_doc (shape_to_js s) = shape_to_js s.
Proof.
  destruct s as [i c l [p | k [t1 p1] [t2 p2]]]; unfold shape_finite; cbn [geom createdAt time price].
  - intros H. apply andb_prop in H as [Hc Hp].
    destruct l; cbn; rewrite Hc, Hp; reflexivity.
  - intros H.
    repeat match goal with E : _ && _ = true |- _ => apply andb_prop in E as [? ?] end.
    destruct k, l; cbn; repeat match goal with E : isFinite _ = true |- _ => rewrite E; clear E end;
      reflexivity.
Qed.

Lemma json_doc_shapes_array (S : list UserShape) :
  map (fun x => match x with JUndef => JNull | _ => json_doc x end) (map shape_to_js S)
  = map (fun s => json_doc (shape_to_js s)) S.
Proof.
  induction S as [|s S IH]; [reflexivity|].
  cbn [map]. rewrite IH. reflexivity.
Qed.

Lemma load_envelope (x : jsval) (l : list jsval) :
  loadDrawings (RawJson (JObj [("version", JNum (Fin 1)); ("savedAt", x); ("shapes", JArr l)]))
  = filter isValidShape l.
Proof. reflexivity. Qed.

Lemma save_doc (savedAt : num) (S : list UserShape) :
  saveDrawings savedAt S =
  RawJson (JObj [("version", JNum (Fin 1)); ("savedAt", json_doc (JNum savedAt));
                 ("shapes", JArr (map (fun s => json_doc (shape_to_js s)) S))]).
Proof. unfold saveDrawings. rewrite <- json_doc_shapes_array. reflexivity. Qed.

Lemma load_save_filter (savedAt : num) (S : list UserShape) :
  loadDrawings (saveDrawings savedAt S) = map shape_to_js (filter shape_finite S).
Proof.
  rewrite save_doc, load_envelope.
  induction S as [|s S IH]; [reflexivity|].
  cbn [map filter]. rewrite valid_json_shape.
  destruct (shape_finite s) eqn:E; cbn [map].
  - rewrite (json_doc_shape_finite s E), IH. reflexivity.
  - exact IH.
Qed.

Lemma is_string_spec (v : jsval) : is_string v = true <-> exists i, v = JStr i.
Proof.
  destruct v; cbn; split; try discriminate; try (intros [? H]; discriminate H); eauto.
Qed.

Lemma is_number_spec (v : jsval) : is_number v = true <-> exists c, v = JNum c.
Proof.
  destruct v; cbn; split; try discriminate; try (intros [? H]; discriminate H); eauto.
Qed.

Lemma is_finite_number_spec (v : jsval) :
  is_finite_number v = true <-> exists p, v = JNum (Fin p).
Proof.
  destruct v as [| | |n| | |]; cbn; split; try discriminate;
    try (intros [? H]; discriminate H).
  - destruct n; cbn; try discriminate. eauto.
  - intros [p H]. injection H as ->. reflexivity.
Qed.

Lemma is_level_string_spec (v : jsval) : is_level_string v = true <-> v = JStr "level".
Proof.
  destruct v; cbn; split; try discriminate.
  - intros H. apply String.eqb_eq in H. subst. reflexivity.
  - intros H. injection H as ->. reflexivity.
Qed.

Lemma isValidShape_andb (x : jsval) :
  isValidShape x =
  isObject x && is_kind_string (get "kind" x) && is_string (get "id" x)
  && is_number (get "createdAt" x)
  && (if is_level_string (get "kind" x) then is_finite_number (get "price" x)
      else isObject (get "a" x) && isObject (get "b" x)
           && is_number (get "time" (get "a" x)) && is_number (get "price" (get "a" x))
           && is_number (get "time" (get "b" x)) && is_number (get "price" (get "b" x))).
Proof.
  unfold isValidShape.
  destruct (isObject x), (is_kind_string (get "kind" x)), (is_string (get "id" x)),
    (is_number (get "createdAt" x)); reflexivity.
Qed.

Lemma isValidShape_iff (x : jsval) : isValidShape x = true <-> structurally_valid x.
Proof.
  rewrite isValidShape_andb. unfold structurally_valid, endpoint_ok.
  rewrite !andb_true_iff, is_string_spec, is_number_spec.
  destruct (is_level_string (get "kind" x)) eqn:Hl.
  - apply is_level_string_spec in Hl. rewrite is_finite_number_spec.
    split.
    + intros [[[[Ho Hk] Hi] Hc] Hp]. repeat split; auto; intros Hp'; contradiction.
    + intros (Ho & Hk & Hi & Hc & Hp & _). auto.
  - assert (Hn : get "kind" x <> JStr "level").
    { intros E. apply is_level_string_spec in E. congruence. }
    rewrite !andb_true_iff. split.
    + intros [[[[Ho Hk] Hi] Hc] [[[[[Ha Hb] Hta] Hpa] Htb] Hpb]].
      repeat split; auto; intros E; contradiction.
    + intros (Ho & Hk & Hi & Hc & _ & Hab). destruct (Hab Hn) as [(? & ? & ?) (? & ? & ?)].
      tauto.
Qed.

(** C2 (defect): a trendline with an infinite endpoint time passes
    [isValidShape], which checks only [typeof ... === 'number'] for the
    endpoints of a Trendline or Zone, while a Level at an infinite price is
    rejected by its [Number.isFinite] check. [JSON.stringify] writes the
    infinity as [null], so [loadDrawings] after [saveDrawings] of this
    structurally valid list returns the empty list, not the list. *)
Theorem C2_infinite_endpoint_dropped :
  isValidShape (shape_to_js trendline_inf) = true /\
  isValidShape (shape_to_js level_inf) = false /\
  loadDrawings (saveDrawings (Fin 0) [trendline_inf]) = [] /\
  loadDrawings (saveDrawings (Fin 0) [trendline_inf]) <> map shape_to_js [trendline_inf].
Proof.
  split; [reflexivity|split; [reflexivity|]].
  rewrite load_save_filter. split; [reflexivity|]. cbn. discriminate.
Qed.

(** [loadDrawings] after [saveDrawings S] returns [S] with exactly the
    shapes having a non-finite number removed; so for every list whose
    numbers (createdAt, price, endpoint times and prices) are all finite,
    it returns [S] itself. *)
Theorem load_save_drops_nonfinite :
  (forall savedAt S,
     loadDrawings (saveDrawings savedAt S) = map shape_to_js (filter shape_finite S)) /\
  (forall savedAt S, forallb shape_finite S = true ->
     loadDrawings (saveDrawings savedAt S) = map shape_to_js S).
Proof.
  split; intros savedAt S; rewrite load_save_filter; [reflexivity|].
  intros H. f_equal. apply forallb_filter_id. exact H.
Qed.

(** C6: [loadDrawings] returns exactly the entries passing [isValidShape]
    of a version-1 envelope with an array [shapes], and [[]] in every other
    case (no item, empty item, parse or access failure, another version,
    [shapes] not an array); [isValidShape] accepts exactly the objects with
    a known kind, a string [id], a numeric [createdAt], a finite [price] for
    a level and two endpoint objects with numeric [time] and [price]
    otherwise; a stored valid Level next to a Trendline missing [b.price]
    loads as the Level alone. *)
Theorem C6_loadDrawings_valid_entries :
  (forall raw, loadDrawings raw =
     match envelope_shapes raw with Some l => filter isValidShape l | None => [] end) /\
  (forall x, isValidShape x = true <-> structurally_valid x) /\
  loadDrawings (RawJson sample_envelope) = [sample_level_js].
Proof.
  split; [|split; [exact isValidShape_iff | reflexivity]].
  intros [| | |parsed]; try reflexivity.
  unfold loadDrawings, envelope_shapes.
  destruct (isObject parsed), (is_version_1 (get "version" parsed)); cbn; try reflexivity.
  destruct (get "shapes" parsed); reflexivity.
Qed.

Lemma drag_translate_id (o : UserShape) (dt dp : num) : id (drag_translate o dt dp) = id o.
Proof. unfold drag_translate. destruct (geom o); reflexivity. Qed.

Lemma drag_translate_meta (o : UserShape) (dt dp : num) :
  id (drag_translate o dt dp) = id o /\ kind (drag_translate o dt dp) = kind o /\
  createdAt (drag_translate o dt dp) = createdAt o /\ label (drag_translate o dt dp) = label o.
Proof. unfold drag_translate, kind. destruct (geom o) as [|[] ? ?]; repeat split. Qed.

Lemma onPointerMove_dragging (c : ToolContext) (p : Pointer) (st : Board)
    (d : string) (start : Pointer) (o : UserShape) :
  interaction st = ModeDragging d start o ->
  interaction (onPointerMove (Some c) p st) = ModeDragging d start o /\
  (userShapes (onPointerMove (Some c) p st) = userShapes st \/
   exists dt dp, userShapes (onPointerMove (Some c) p st) =
     map (fun s => if String.eqb (id s) d then drag_translate o dt dp else s) (userShapes st)).
Proof.
  intros H. unfold onPointerMove. rewrite H.
  destruct (toPoint c start), (toPoint c p); cbn; auto.
  split; [exact H|]. right. eauto.
Qed.

(** A write of the final translate absorbs any earlier write of a
    translate of the same snapshot. *)
Lemma replace_absorbs (d : string) (T T' : UserShape) (l : list UserShape) :
  id T' = d ->
  map (fun s => if String.eqb (id s) d then T else s)
      (map (fun s => if String.eqb (id s) d then T' else s) l)
  = map (fun s => if String.eqb (id s) d then T else s) l.
Proof.
  intros HT. rewrite map_map. apply map_ext. intros s.
  destruct (String.eqb (id s) d) eqn:E.
  - rewrite HT, String.eqb_refl. reflexivity.
  - rewrite E. reflexivity.
Qed.

Lemma moves_dragging (c : ToolContext) (d : string) (start : Pointer) (o : UserShape)
    (T : UserShape) (moves : list Pointer) :
  id o = d -> forall st,
  interaction st = ModeDragging d start o ->
  interaction (fold_left (fun st p => onPointerMove (Some c) p st) moves st)
    = ModeDragging d start o /\
  map (fun s => if String.eqb (id s) d then T else s)
      (userShapes (fold_left (fun st p => onPointerMove (Some c) p st) moves st))
  = map (fun s => if String.eqb (id s) d then T else s) (userShapes st).
Proof.
  intros Ho. induction moves as [|p moves IH]; intros st H; cbn [fold_left]; [auto|].
  destruct (onPointerMove_dragging c p st d start o H) as [Hi [Hs | (dt & dp & Hs)]];
    destruct (IH _ Hi) as [Hi' Hs']; split; try exact Hi'; rewrite Hs', Hs; [reflexivity|].
  apply replace_absorbs. rewrite drag_translate_id. exact Ho.
Qed.

(** C1: during a drag of a Trendline or Zone with original endpoints [a]
    and [b], after any sequence of pointer moves whose last one maps to a
    domain delta [(dt, dp)] from the drag anchor, every store entry with the
    dragged id is exactly the original snapshot with [a' = a + (dt, dp)] and
    [b' = b + (dt, dp)], whatever the intermediate moves were; other entries
    are unchanged. *)
Theorem C1_drag_translates_original_snapshot (c : ToolContext) (st0 : Board)
    (d : string) (start : Pointer) (o : UserShape) (k : TwoPointKind) (a b : Point)
    (moves : list Pointer) (last : Pointer) (sp np : Point) :
  interaction st0 = ModeDragging d start o ->
  id o = d ->
  geom o = GTwo k a b ->
  toPoint c start = Some sp ->
  toPoint c last = Some np ->
  userShapes (fold_left (fun st p => onPointerMove (Some c) p st) (moves ++ [last]) st0)
  = map (fun s =>
           if String.eqb (id s) d then
             with_geom o
               (GTwo k
                  (mkPoint (num_add (time a) (num_sub (time np) (time sp)))
                           (num_add (price a) (num_sub (price np) (price sp))))
                  (mkPoint (num_add (time b) (num_sub (time np) (time sp)))
                           (num_add (price b) (num_sub (price np) (price sp)))))
           else s)
        (userShapes st0).
Proof.
  intros Hst Ho Hg Hsp Hnp.
  rewrite fold_left_app. cbn [fold_left].
  destruct (moves_dragging c d start o
              (drag_translate o (num_sub (time np) (time sp)) (num_sub (price np) (price sp)))
              moves Ho st0 Hst) as [Hi Hs].
  unfold onPointerMove at 1. rewrite Hi, Hsp, Hnp. cbn zeta beta iota delta [userShapes set_userShapes].
  rewrite Hs. unfold drag_translate. rewrite Hg. reflexivity.
Qed.

(** C1 at the spec's example: a zone dragged by (dt, dp) = (10, -2), with
    one ignored move outside the domain and one other move before. *)
Lemma C1_witness :
  userShapes (fold_left (fun st p => onPointerMove (Some sample_ctx) p st)
                ([mkPointer 2000 0; mkPointer 170 230] ++ [mkPointer 160 218]) drag_board)
  = [sample_level;
     with_geom sample_zone (GTwo KZone (mkPoint (Fin 110) (Fin 198)) (mkPoint (Fin 310) (Fin 248)))].
Proof.
  rewrite (C1_drag_translates_original_snapshot sample_ctx drag_board "zone_1"
             (mkPointer 150 220) sample_zone KZone (mkPoint (Fin 100) (Fin 200))
             (mkPoint (Fin 300) (Fin 250)) [mkPointer 2000 0; mkPointer 170 230]
             (mkPointer 160 218) (mkPoint (Fin 150) (Fin 220)) (mkPoint (Fin 160) (Fin 218)));
    reflexivity.
Defined.

(** C10: a drag update writes back, for each store entry with the dragged
    id, the original snapshot's id, kind, createdAt and label (only the
    geometry differs), and leaves every entry with another id as it was. *)
Theorem C10_drag_keeps_identity_and_frame (c : ToolContext) (st : Board)
    (d : string) (start p : Pointer) (o : UserShape) (sp np : Point) :
  interaction st = ModeDragging d start o ->
  toPoint c start = Some sp ->
  toPoint c p = Some np ->
  Forall2 (fun s s' =>
             if String.eqb (id s) d then
               id s' = id o /\ kind s' = kind o /\ createdAt s' = createdAt o /\ label s' = label o
             else s' = s)
          (userShapes st) (userShapes (onPointerMove (Some c) p st)).
Proof.
  intros Hst Hsp Hnp. unfold onPointerMove. rewrite Hst, Hsp, Hnp. cbn [userShapes set_userShapes].
  induction (userShapes st) as [|s l IH]; constructor; [|exact IH].
  destruct (String.eqb (id s) d); [apply drag_translate_meta | reflexivity].
Qed.

Lemma C10_witness :
  Forall2 (fun s s' =>
             if String.eqb (id s) "zone_1" then
               id s' = id sample_zone /\ kind s' = kind sample_zone /\
               createdAt s' = createdAt sample_zone /\ label s' = label sample_zone
             else s' = s)
          (userShapes drag_board)
          (userShapes (onPointerMove (Some sample_ctx) (mkPointer 160 218) drag_board)).
Proof.
  apply (C10_drag_keeps_identity_and_frame sample_ctx drag_board "zone_1" (mkPointer 150 220)
           (mkPointer 160 218) sample_zone (mkPoint (Fin 150) (Fin 220)) (mkPoint (Fin 160) (Fin 218)));
    reflexivity.
Defined.

(** C5 (counterexample): a pointer-up outside the domain while drawing is
    not ignored: the draft is discarded and the mode returns to idle. *)
Lemma C5_counterexample :
  interaction drawing_board = ModeDrawing KTrendline (mkPointer 100 100) /\
  toPoint sample_ctx (mkPointer 2000 100) = None /\
  draftShape (onPointerUp (Some sample_ctx) (mkPointer 2000 100) drawing_board) = None /\
  interaction (onPointerUp (Some sample_ctx) (mkPointer 2000 100) drawing_board) = ModeNone /\
  onPointerUp (Some sample_ctx) (mkPointer 2000 100) drawing_board <> drawing_board.
Proof.
  repeat split; try reflexivity. cbn. discriminate.
Qed.

(** C5 (amended): a pointer-move outside the domain in Drawing or Dragging
    leaves the whole state unchanged; a pointer-up outside the domain ends
    the gesture: in Drawing it drops the draft without committing it, in
    Dragging it only returns to idle. *)
Theorem C5_out_of_domain_pointer (c : ToolContext) (st : Board) (p : Pointer) :
  toPoint c p = None ->
  (forall k start, interaction st = ModeDrawing k start ->
     onPointerMove (Some c) p st = st /\
     onPointerUp (Some c) p st = set_interaction ModeNone (set_draftShape None st)) /\
  (forall d start o, interaction st = ModeDragging d start o ->
     onPointerMove (Some c) p st = st /\
     onPointerUp (Some c) p st = set_interaction ModeNone st).
Proof.
  intros Hp. split.
  - intros k start Hi. unfold onPointerMove, onPointerUp. rewrite Hi, Hp. auto.
  - intros d start o Hi. unfold onPointerMove, onPointerUp. rewrite Hi, Hp.
    destruct (toPoint c start); auto.
Qed.

Lemma C5_witness :
  toPoint sample_ctx (mkPointer 2000 100) = None /\
  onPointerMove (Some sample_ctx) (mkPointer 2000 100) drawing_board = drawing_board.
Proof.
  split; [reflexivity|].
  apply (proj1 (C5_out_of_domain_pointer sample_ctx drawing_board (mkPointer 2000 100) eq_refl)
           KTrendline (mkPointer 100 100) eq_refl).
Defined.

(** C8: when the store holds [N >= 1] user shapes, the last being the most
    recently committed, undo removes exactly that last one, keeps the other
    [N - 1] in order and leaves the engine shapes unchanged. *)
Theorem C8_undo_drops_most_recent (st : Board) (l : list UserShape) (s : UserShape) :
  userShapes st = (l ++ [s])%list ->
  userShapes (undo st) = l /\ engineShapes (undo st) = engineShapes st.
Proof.
  intros H. unfold undo. cbn. rewrite H, removelast_last. auto.
Qed.

Lemma C8_witness :
  userShapes drag_board = ([sample_level] ++ [sample_zone])%list /\
  userShapes (undo drag_board) = [sample_level] /\ engineShapes (undo drag_board) = [].
Proof.
  split; [reflexivity|].
  exact (C8_undo_drops_most_recent drag_board [sample_level] sample_zone eq_refl).
Defined.

(** Committing a draft at pointer-up appends it at the end of the store. *)
Lemma onPointerUp_commit_appends (c : ToolContext) (st : Board) (p : Pointer)
    (k : TwoPointKind) (start : Pointer) (prev : UserShape) (ep : Point) :
  interaction st = ModeDrawing k start -> draftShape st = Some prev -> toPoint c p = Some ep ->
  userShapes (onPointerUp (Some c) p st) = userShapes st ++ [set_endpoint_b ep prev] /\
  engineShapes (onPointerUp (Some c) p st) = engineShapes st.
Proof.
  intros Hi Hd Hp. unfold onPointerUp. rewrite Hi, Hp, Hd. cbn. auto.
Qed.

Lemma hitTest_last (c : ToolContext) (p : Pointer) (rest : list UserShape) (s : UserShape) :
  hitTest (rest ++ [s]) c p = if hitShape c p s then Some (id s) else hitTest rest c p.
Proof. unfold hitTest. rewrite rev_unit. reflexivity. Qed.

Lemma hitShape_level (c : ToolContext) (p : Pointer) (lvl : UserShape) (P : num) (y : Q) :
  geom lvl = GLevel P -> priceToY c P = Some y ->
  hitShape c p lvl = Qle_bool (Qabs (py p - y)) threshold.
Proof. intros Hg Hy. unfold hitShape. rewrite Hg, Hy. reflexivity. Qed.

(** C9: for a Level at price [P] with [priceToY P = y], [hitTest] reports
    it exactly when [|pointer.y - y| <= 8] (above any shapes created
    before it); in particular with [y = 50] every pointer with
    [42 <= pointer.y <= 58] hits and a pointer at [y = 70] misses. *)
Theorem C9_level_hit_test (c : ToolContext) (lvl : UserShape) (P : num) (y : Q) :
  geom lvl = GLevel P -> priceToY c P = Some y ->
  (forall rest p, hitTest (rest ++ [lvl]) c p =
     if Qle_bool (Qabs (py p - y)) 8 then Some (id lvl) else hitTest rest c p) /\
  (forall p, hitTest [lvl] c p = Some (id lvl) <-> Qabs (py p - y) <= 8) /\
  (forall p, hitTest [lvl] c p = None <-> ~ Qabs (py p - y) <= 8) /\
  (y == 50 ->
     (forall p, 42 <= py p <= 58 -> hitTest [lvl] c p = Some (id lvl)) /\
     (forall p, py p == 70 -> hitTest [lvl] c p = None)).
Proof.
  intros Hg Hy.
  assert (Hone : forall p, hitTest [lvl] c p =
            if Qle_bool (Qabs (py p - y)) 8 then Some (id lvl) else None).
  { intros p. pose proof (hitShape_level c p lvl P y Hg Hy) as E. unfold threshold in E.
    rewrite <- E. exact (hitTest_last c p [] lvl). }
  assert (Hhit : forall p, hitTest [lvl] c p = Some (id lvl) <-> Qabs (py p - y) <= 8).
  { intros p. rewrite Hone, <- Qle_bool_iff.
    destruct (Qle_bool _ _); split; congruence. }
  assert (Hmiss : forall p, hitTest [lvl] c p = None <-> ~ Qabs (py p - y) <= 8).
  { intros p. rewrite Hone, <- Qle_bool_iff.
    destruct (Qle_bool _ _); split; congruence. }
  split; [|split; [exact Hhit|split; [exact Hmiss|]]].
  - intros rest p. rewrite hitTest_last, (hitShape_level c p lvl P y Hg Hy). reflexivity.
  - intros H50. split.
    + intros p [Hlo Hhi]. apply Hhit. apply Qabs_Qle_condition. split; lra.
    + intros p H70. apply Hmiss. rewrite Qabs_Qle_condition. lra.
Qed.

Lemma C9_witness :
  priceToY level_ctx (Fin 100) = Some 50 /\
  hitTest [sample_level] level_ctx (mkPointer 0 42) = Some "lvl_1" /\
  hitTest [sample_level] level_ctx (mkPointer 0 58) = Some "lvl_1" /\
  hitTest [sample_level] level_ctx (mkPointer 0 70) = None.
Proof.
  destruct (C9_level_hit_test level_ctx sample_level (Fin 100) 50 eq_refl eq_refl)
    as (_ & _ & _ & H).
  destruct (H (Qeq_refl 50)) as [Hin Hout].
  split; [reflexivity|].
  split; [apply (Hin (mkPointer 0 42)); cbn; split; lra|].
  split; [apply (Hin (mkPointer 0 58)); cbn; split; lra|].
  apply (Hout (mkPointer 0 70)). reflexivity.
Defined.

Lemma last_opt_app_single {A : Type} (l : list A) (x : A) : last_opt (l ++ [x]) = Some x.
Proof.
  induction l as [|a l IH]; [reflexivity|].
  cbn [app]. destruct l as [|b l']; [reflexivity|]. exact IH.
Qed.

Lemma last_opt_removelast {A : Type} (l : list A) (x y : A) :
  last_opt l = Some x -> last_opt (removelast l ++ [y]) = Some y.
Proof. intros _. apply last_opt_app_single. Qed.

(** C3 (counterexample): the live update with time 1700000000500 is not
    normalised to 1700000000: the division by 1000 is not rounded. *)
Lemma C3_counterexample :
  ~ num_eq (normalize_ms (Fin 1700000000500)) (Fin 1700000000).
Proof. vm_compute. discriminate. Qed.

(** C3 (amended): a numeric time above 2*10^9, in the history fetch as in
    a live update, is divided by 1000 (without rounding); a live candle
    not older than the last buffered one is merged into the buffer with
    that time, while an older one is rejected by the series update and
    leaves the buffer unchanged; 1700000000500 becomes 1700000000.5. *)
Theorem C3_time_divided_by_1000 :
  (forall t, num_gt t (Fin 2000000000) = true ->
     normalize_ms t = num_div t (Fin 1000) /\
     (forall parse_ms, fetch_time parse_ms (TNum t) = num_div t (Fin 1000)) /\
     (forall buf d, c_time d = t ->
        (forall last, last_opt buf = Some last ->
           num_gt (c_time last) (num_div t (Fin 1000)) = false) ->
        last_opt (ws_onmessage buf d) = Some (with_time d (num_div t (Fin 1000)))) /\
     (forall buf d last, c_time d = t -> last_opt buf = Some last ->
        num_gt (c_time last) (num_div t (Fin 1000)) = true ->
        ws_onmessage buf d = buf)) /\
  num_eq (normalize_ms (Fin 1700000000500)) (Fin (3400000001 # 2)).
Proof.
  split; [|vm_compute; reflexivity].
  intros t Ht. unfold normalize_ms. rewrite Ht.
  split; [reflexivity|split; [|split]].
  - intros parse_ms. unfold fetch_time, normalize_ms. rewrite Ht. reflexivity.
  - intros buf d Hd Hn. unfold ws_onmessage, normalize_ms. rewrite Hd, Ht.
    destruct (last_opt buf) as [last|] eqn:E.
    + cbn [c_time with_time]. rewrite (Hn last eq_refl).
      destruct (num_eqb _ _); [eapply last_opt_removelast; eauto|apply last_opt_app_single].
    + apply last_opt_app_single.
  - intros buf d last Hd E Hgt. unfold ws_onmessage, normalize_ms. rewrite Hd, Ht, E.
    cbn [c_time with_time]. rewrite Hgt. reflexivity.
Qed.

(** The spec's example for the adapter: candles on [1000, 2000] and the
    payload with one level and one zone give one gold Level at 1.2345 and
    one green Zone from time 1000 to time 2000. *)
Lemma buildEngineShapes_spec_example (nowSec1 nowSec2 : Z) :
  buildEngineShapes prefix_id (Fin 0) nowSec1 nowSec2 [candle_at 1000; candle_at 1500; candle_at 2000]
    spec_annotations
  = [mkEngineShape (mkShape "eng_lvl" (Fin 0) None (GLevel (Fin (12345 # 10000)))) Gold;
     mkEngineShape (mkShape "eng_zone" (Fin 0) None
                      (GTwo KZone (mkPoint (Fin 1000) (Fin 1)) (mkPoint (Fin 2000) (Fin (11 # 10)))))
       Green].
Proof. reflexivity. Qed.

(** C4 (defect): with a first candle at time 0 the zone is anchored at
    [nowSec() - 3600] (here the reading 1760000000) instead of the first
    candle's time, because the code tests [data.at(0)?.time] for
    truthiness; the second reading of the clock plays no part. *)
Theorem C4_zero_time_candle_falls_back (nowSec2 : Z) :
  buildEngineShapes prefix_id (Fin 0) 1760000000 nowSec2 [candle_at 0; candle_at 2000] zone_annotations
  = [mkEngineShape (mkShape "eng_zone" (Fin 0) None
        (GTwo KZone (mkPoint (num_of_Z 1759996400) (Fin 1)) (mkPoint (Fin 2000) (Fin (11 # 10)))))
       Green] /\
  ~ num_eq (num_of_Z 1759996400) (c_time (candle_at 0)).
Proof. split; [reflexivity|vm_compute; discriminate]. Qed.

(** [drawZone] always draws a rectangle at least one pixel wide and high. *)
Lemma drawZone_clamped (x1 y1 x2 y2 : Q) (stroke fill : string) :
  exists left top w h,
    In (RectPath left top w h) (drawZone x1 y1 x2 y2 stroke fill) /\ 1 <= w /\ 1 <= h.
Proof.
  unfold drawZone, Qmax'.
  eexists _, _, _, _. split; [cbn; right; right; right; right; left; reflexivity|].
  split; match goal with |- 1 <= (if ?b then _ else _) => destruct b eqn:E end;
    try (apply Qle_bool_iff; exact E); apply Qle_refl.
Qed.

(** C7 (defect): a zero-length trendline at pixel (100, 50) is stroked as
    the zero-length path from (100, 50) to (100, 50), with no clamping to a
    one-pixel extent, whereas the zero-size zone at the same place is drawn
    as a 1 x 1 rectangle by [drawZone]. *)
Theorem C7_degenerate_trendline_not_clamped :
  renderShape sample_coords degenerate_trendline None 800 false sample_style
  = [BeginPath; MoveTo 100 50; LineTo 100 50; SetStrokeStyle (st_user sample_style);
     SetLineWidth HIT_LINE_WIDTH; StrokePath] /\
  renderShape sample_coords degenerate_zone None 800 false sample_style
  = [SetFillStyle "rgba(255, 255, 255, 0.10)"; SetStrokeStyle (st_user sample_style);
     SetLineWidth 2; BeginPath; RectPath 100 50 1 1; FillPath; StrokePath].
Proof. split; reflexivity. Qed.

(** ** Further properties of the code *)

(** [hitTest] reports the id of the last (most recently created) shape
    under the pointer: it is found at some position, it is hit, and no
    shape after it is hit. *)
Theorem hitTest_topmost (shapes : list UserShape) (ctx : ToolContext) (p : Pointer) (i : string) :
  hitTest shapes ctx p = Some i <->
  exists l1 s l2, shapes = l1 ++ s :: l2 /\ id s = i /\ hitShape ctx p s = true /\
                  Forall (fun s' => hitShape ctx p s' = false) l2.
Proof.
  split.
  - induction shapes as [|s l IH] using rev_ind; [discriminate|].
    rewrite hitTest_last. destruct (hitShape ctx p s) eqn:E.
    + intros H. injection H as <-. exists l, s, []. auto.
    + intros H. destruct (IH H) as (l1 & s' & l2 & -> & Hi & Hh & Hf).
      exists l1, s', (l2 ++ [s]). rewrite <- app_assoc. repeat split; auto.
      apply Forall_app. auto.
  - intros (l1 & s & l2 & -> & Hi & Hh & Hf).
    induction l2 as [|x l2 IH] using rev_ind.
    + rewrite hitTest_last, Hh, Hi. reflexivity.
    + apply Forall_app in Hf as [Hf Hx]. inversion Hx; subst.
      replace (l1 ++ s :: l2 ++ [x]) with ((l1 ++ s :: l2) ++ [x])
        by (rewrite <- app_assoc; reflexivity).
      rewrite hitTest_last.
      match goal with H : hitShape ctx p x = false |- _ => rewrite H end.
      apply IH. exact Hf.
Qed.

(** [hitTest] reports no hit exactly when no shape is under the pointer. *)
Theorem hitTest_none (shapes : list UserShape) (ctx : ToolContext) (p : Pointer) :
  hitTest shapes ctx p = None <-> Forall (fun s => hitShape ctx p s = false) shapes.
Proof.
  induction shapes as [|s l IH] using rev_ind; [split; auto|].
  rewrite hitTest_last, Forall_app. destruct (hitShape ctx p s) eqn:E.
  - split; [discriminate|]. intros [_ H]. inversion H. congruence.
  - rewrite IH. split; [intros H; split; auto|intros [H _]; exact H].
Qed.

Lemma Qle_bool_Qeq_compat (a b c : Q) : a == b -> Qle_bool b c = true -> Qle_bool a c = true.
Proof.
  intros H Hb. apply Qle_bool_iff in Hb. apply Qle_bool_iff. rewrite H. exact Hb.
Qed.

Lemma Qle_bool_false (a b : Q) : Qle_bool a b = false -> b < a.
Proof.
  intros H. apply Qnot_le_lt. intros Hle. apply Qle_bool_iff in Hle. congruence.
Qed.

Ltac Qle_bool_cases :=
  repeat match goal with
  | |- context [Qle_bool ?a ?b] =>
      let E := fresh "E" in
      destruct (Qle_bool a b) eqn:E;
      [apply Qle_bool_iff in E | apply Qle_bool_false in E]
  end.

Lemma clamp01_value (q : Q) : 0 <= q <= 1 -> Qmax' 0 (Qmin' 1 q) == q.
Proof.
  intros [H0 H1]. unfold Qmin'.
  destruct (Qle_bool 1 q) eqn:E1; [apply Qle_bool_iff in E1|apply Qle_bool_false in E1];
    unfold Qmax'; Qle_bool_cases; lra.
Qed.

Lemma distSq_at_a (ax ay bx by0 : Q) : distSqPointToSegment ax ay ax ay bx by0 == 0.
Proof.
  unfold distSqPointToSegment. cbv zeta.
  destruct (Qeq_bool _ 0) eqn:E; [ring|].
  match goal with |- context [Qmax' 0 (Qmin' 1 ?q)] =>
    assert (Hq : q == 0) by (unfold Qdiv; ring);
    assert (Ht : Qmax' 0 (Qmin' 1 q) == 0)
      by (rewrite clamp01_value; [exact Hq | rewrite Hq; lra]);
    rewrite Ht end.
  ring.
Qed.

Lemma distSq_at_b (ax ay bx by0 : Q) : distSqPointToSegment bx by0 ax ay bx by0 == 0.
Proof.
  unfold distSqPointToSegment. cbv zeta.
  destruct (Qeq_bool _ 0) eqn:E.
  - apply Qeq_bool_eq in E. nra.
  - apply Qeq_bool_neq in E.
    match goal with |- context [Qmax' 0 (Qmin' 1 ?q)] =>
      assert (Hq : q == 1) by (unfold Qdiv; apply Qmult_inv_r; exact E);
      assert (Ht : Qmax' 0 (Qmin' 1 q) == 1)
        by (rewrite clamp01_value; [exact Hq | rewrite Hq; lra]);
      rewrite Ht end.
    ring.
Qed.

(** A trendline whose endpoints are on screen is hit when the pointer is
    exactly on either endpoint, whatever its length (a zero-length one
    included). *)
Theorem hitShape_trendline_endpoints (ctx : ToolContext) (s : UserShape) (a b : Point)
    (ax ay bx by0 : Q) :
  geom s = GTwo KTrendline a b ->
  timeToX ctx (time a) = Some ax -> priceToY ctx (price a) = Some ay ->
  timeToX ctx (time b) = Some bx -> priceToY ctx (price b) = Some by0 ->
  hitShape ctx (mkPointer ax ay) s = true /\ hitShape ctx (mkPointer bx by0) s = true.
Proof.
  intros Hg H1 H2 H3 H4. unfold hitShape. rewrite Hg, H1, H2, H3, H4. cbn [px py].
  split; eapply Qle_bool_Qeq_compat;
    [apply distSq_at_a | reflexivity | apply distSq_at_b | reflexivity].
Qed.

Lemma hitShape_trendline_endpoints_witness :
  hitShape sample_ctx (mkPointer 100 100) draft_trendline = true /\
  hitShape sample_ctx (mkPointer 150 120) draft_trendline = true.
Proof.
  apply (hitShape_trendline_endpoints sample_ctx draft_trendline
           (mkPoint (Fin 100) (Fin 100)) (mkPoint (Fin 150) (Fin 120)) 100 100 150 120);
    reflexivity.
Defined.

Lemma num_gt_asym (x y : num) : num_gt x y = true -> num_gt y x = false.
Proof.
  destruct x as [a| | |], y as [b| | |]; cbn; try discriminate; try reflexivity.
  intros H. apply negb_true_iff in H. apply Qle_bool_false in H.
  apply negb_false_iff. apply Qle_bool_iff. lra.
Qed.

Lemma num_min_max_cover (x y : num) :
  x <> NaN -> y <> NaN -> num_min x y = x \/ num_max x y = x.
Proof.
  intros Hx Hy. unfold num_min, num_max.
  assert (H : (if num_gt x y then y else x) = x \/ (if num_gt y x then y else x) = x).
  { destruct (num_gt x y) eqn:E; [right; rewrite (num_gt_asym x y E); reflexivity|left; reflexivity]. }
  destruct x, y; try congruence; exact H.
Qed.

Lemma Qmin'_le_l (a b : Q) : Qmin' a b <= a.
Proof. unfold Qmin'. Qle_bool_cases; lra. Qed.
Lemma Qmin'_le_r (a b : Q) : Qmin' a b <= b.
Proof. unfold Qmin'. Qle_bool_cases; lra. Qed.
Lemma Qmax'_ge_l (a b : Q) : a <= Qmax' a b.
Proof. unfold Qmax'. Qle_bool_cases; lra. Qed.
Lemma Qmax'_ge_r (a b : Q) : b <= Qmax' a b.
Proof. unfold Qmax'. Qle_bool_cases; lra. Qed.

Lemma between_min_max (conv : num -> option Q) (x y : num) (v w1 w2 : Q) :
  x <> NaN -> y <> NaN -> conv x = Some v ->
  conv (num_min x y) = Some w1 -> conv (num_max x y) = Some w2 ->
  Qle_bool (Qmin' w1 w2) v && Qle_bool v (Qmax' w1 w2) = true.
Proof.
  intros Hx Hy Hv H1 H2. apply andb_true_iff. rewrite !Qle_bool_iff.
  destruct (num_min_max_cover x y Hx Hy) as [E|E]; rewrite E in H1 || rewrite E in H2;
    congruence || idtac.
  - rewrite Hv in H1. injection H1 as <-. split; [apply Qmin'_le_l|apply Qmax'_ge_l].
  - rewrite Hv in H2. injection H2 as <-. split; [apply Qmin'_le_r|apply Qmax'_ge_r].
Qed.

(** A zone (with no NaN coordinate) whose bounds are on screen is hit when
    the pointer is exactly on the pixel of its first corner [a], whatever
    the order of the two corners. *)
Theorem hitShape_zone_corner (ctx : ToolContext) (s : UserShape) (a b : Point)
    (ax ay x1 x2 y1 y2 : Q) :
  geom s = GTwo KZone a b ->
  time a <> NaN -> time b <> NaN -> price a <> NaN -> price b <> NaN ->
  timeToX ctx (time a) = Some ax -> priceToY ctx (price a) = Some ay ->
  timeToX ctx (num_min (time a) (time b)) = Some x1 ->
  timeToX ctx (num_max (time a) (time b)) = Some x2 ->
  priceToY ctx (num_min (price a) (price b)) = Some y1 ->
  priceToY ctx (num_max (price a) (price b)) = Some y2 ->
  hitShape ctx (mkPointer ax ay) s = true.
Proof.
  intros Hg Ht1 Ht2 Hp1 Hp2 Hax Hay H1 H2 H3 H4.
  unfold hitShape. rewrite Hg, H1, H2, H3, H4. cbn [px py].
  pose proof (between_min_max _ _ _ _ _ _ Ht1 Ht2 Hax H1 H2) as Hx.
  pose proof (between_min_max _ _ _ _ _ _ Hp1 Hp2 Hay H3 H4) as Hy.
  apply andb_true_iff in Hx as [Hx1 Hx2]. apply andb_true_iff in Hy as [Hy1 Hy2].
  rewrite Hx1, Hx2, Hy1, Hy2. reflexivity.
Qed.

Lemma hitShape_zone_corner_witness :
  hitShape sample_ctx (mkPointer 300 250)
    (mkShape "z" (Fin 0) None (GTwo KZone (mkPoint (Fin 300) (Fin 250)) (mkPoint (Fin 100) (Fin 200))))
  = true.
Proof.
  apply (hitShape_zone_corner sample_ctx _ (mkPoint (Fin 300) (Fin 250)) (mkPoint (Fin 100) (Fin 200))
           300 250 100 300 200 250); try reflexivity; discriminate.
Defined.

Lemma find_some_of_in (l : list UserShape) (i : string) (s : UserShape) :
  In s l -> id s = i -> exists o, find (fun s => String.eqb (id s) i) l = Some o.
Proof.
  intros Hin Hi. destruct (find (fun s => String.eqb (id s) i) l) as [o|] eqn:E; [eauto|].
  exfalso. pose proof (find_none _ _ E s Hin) as H. cbn in H. rewrite Hi, String.eqb_refl in H.
  discriminate.
Qed.

(** Pointer-down with the select tool never changes the store. When a
    shape is hit it starts a drag whose snapshot is the first stored shape
    carrying the hit id, and selects that id. With nothing hit it clears
    the selection and goes idle. *)
Theorem onPointerDown_select (newId : string -> nat -> string) (now : num)
    (c : ToolContext) (p : Pointer) (st : Board) :
  tool st = ToolSelect ->
  let st' := onPointerDown newId now (Some c) p st in
  userShapes st' = userShapes st /\ engineShapes st' = engineShapes st /\
  match hitTest (userShapes st) c p with
  | Some i => exists o, In o (userShapes st) /\ id o = i /\
                        interaction st' = ModeDragging i p o /\ selectedId st' = Some i
  | None => interaction st' = ModeNone /\ selectedId st' = None
  end.
Proof.
  intros Ht st'. subst st'. unfold onPointerDown. rewrite Ht.
  destruct (hitTest (userShapes st) c p) as [i|] eqn:Eh; [|cbn; auto].
  destruct (proj1 (hitTest_topmost _ _ _ _) Eh) as (l1 & s & l2 & Hl & Hi & _).
  assert (Hin : In s (userShapes st)) by (rewrite Hl; apply in_or_app; right; left; reflexivity).
  destruct (find_some_of_in _ _ _ Hin Hi) as [o Ho]. rewrite Ho.
  apply find_some in Ho as [Hino Heq]. apply String.eqb_eq in Heq.
  cbn. repeat split. exists o. rewrite Heq. auto.
Qed.

Lemma onPointerDown_select_witness :
  userShapes (onPointerDown prefix_id (Fin 0) (Some sample_ctx) (mkPointer 150 220) drag_board)
    = userShapes drag_board /\
  interaction (onPointerDown prefix_id (Fin 0) (Some sample_ctx) (mkPointer 150 220) drag_board)
    = ModeDragging "zone_1" (mkPointer 150 220) sample_zone.
Proof.
  destruct (onPointerDown_select prefix_id (Fin 0) sample_ctx (mkPointer 150 220) drag_board eq_refl)
    as (Hs & _ & Hm).
  split; [exact Hs|].
  cbn in Hm. destruct Hm as (o & Hin & Hi & Hint & _). rewrite Hint.
  destruct Hin as [<-|[<-|[]]]; [discriminate Hi|reflexivity].
Defined.

(** Pointer-down with the level tool inside the domain appends a Level at
    the pointer's price, selects it and leaves the gesture mode as it was;
    undo then restores the previous store. Outside the domain it does
    nothing. *)
Theorem onPointerDown_level (newId : string -> nat -> string) (now : num)
    (c : ToolContext) (p : Pointer) (st : Board) :
  tool st = ToolLevel ->
  let st' := onPointerDown newId now (Some c) p st in
  match yToPrice c (py p) with
  | Some pr =>
      userShapes st' = userShapes st ++ [mkShape (newId "lvl" (nonce st)) now None (GLevel pr)] /\
      selectedId st' = Some (newId "lvl" (nonce st)) /\
      interaction st' = interaction st /\ engineShapes st' = engineShapes st /\
      userShapes (undo st') = userShapes st
  | None => st' = st
  end.
Proof.
  intros Ht st'. subst st'. unfold onPointerDown. rewrite Ht.
  destruct (yToPrice c (py p)); [|reflexivity].
  cbn. repeat split. apply removelast_last.
Qed.

Lemma onPointerDown_level_witness :
  userShapes (undo (onPointerDown prefix_id (Fin 0) (Some sample_ctx) (mkPointer 10 40)
                      (idle_board ToolLevel))) = [sample_level].
Proof.
  exact (proj2 (proj2 (proj2 (proj2
    (onPointerDown_level prefix_id (Fin 0) sample_ctx (mkPointer 10 40) (idle_board ToolLevel)
       eq_refl))))).
Defined.

Lemma with_geom_twice (s : UserShape) (g g' : ShapeGeom) : with_geom (with_geom s g) g' = with_geom s g'.
Proof. reflexivity. Qed.

Lemma moves_drawing (c : ToolContext) (k : TwoPointKind) (start : Pointer) (s0 : UserShape)
    (a : Point) (moves : list Pointer) : forall st b,
  interaction st = ModeDrawing k start ->
  draftShape st = Some (with_geom s0 (GTwo k a b)) ->
  let st' := fold_left (fun st p => onPointerMove (Some c) p st) moves st in
  interaction st' = ModeDrawing k start /\ userShapes st' = userShapes st /\
  engineShapes st' = engineShapes st /\ selectedId st' = selectedId st /\
  exists b', draftShape st' = Some (with_geom s0 (GTwo k a b')).
Proof.
  induction moves as [|p moves IH]; intros st b Hi Hd; cbn [fold_left]; [eauto 6|].
  assert (Hstep : exists b1, let st1 := onPointerMove (Some c) p st in
            interaction st1 = interaction st /\ userShapes st1 = userShapes st /\
            engineShapes st1 = engineShapes st /\ selectedId st1 = selectedId st /\
            draftShape st1 = Some (with_geom s0 (GTwo k a b1))).
  { unfold onPointerMove. rewrite Hi.
    destruct (toPoint c p) as [pt|].
    - exists pt. rewrite Hd. cbn. auto.
    - exists b. auto. }
  destruct Hstep as (b1 & Hi1 & Hu1 & He1 & Hs1 & Hd1).
  rewrite Hi in Hi1.
  destruct (IH _ b1 Hi1 Hd1) as (Hi2 & Hu2 & He2 & Hs2 & Hd2).
  rewrite Hu2, He2, Hs2, Hu1, He1, Hs1. auto.
Qed.

(** A drawing gesture with the trendline or zone tool: pointer-down inside
    the domain at [p0], any pointer moves, then pointer-up at [p1]. If [p1]
    is inside the domain, exactly one shape of the tool's kind is appended
    to the store, from the point under [p0] to the point under [p1], and it
    is selected; if [p1] is outside, the store is unchanged. Either way the
    gesture ends idle with no draft, and engine shapes are untouched. *)
Theorem drawing_gesture_commits (newId : string -> nat -> string) (now : num)
    (c : ToolContext) (k : TwoPointKind) (st : Board) (p0 p1 : Pointer) (a : Point)
    (moves : list Pointer) :
  tool st = tool_of_kind k ->
  toPoint c p0 = Some a ->
  let st1 := fold_left (fun st p => onPointerMove (Some c) p st) moves
               (onPointerDown newId now (Some c) p0 st) in
  let st2 := onPointerUp (Some c) p1 st1 in
  interaction st2 = ModeNone /\ draftShape st2 = None /\ engineShapes st2 = engineShapes st /\
  match toPoint c p1 with
  | Some b =>
      userShapes st2 =
        userShapes st ++ [mkShape (newId (id_prefix k) (nonce st)) now None (GTwo k a b)] /\
      selectedId st2 = Some (newId (id_prefix k) (nonce st))
  | None => userShapes st2 = userShapes st
  end.
Proof.
  intros Ht Ha st1 st2.
  set (s0 := mkShape (newId (id_prefix k) (nonce st)) now None (GTwo k a a)).
  assert (Hdown : let sd := onPointerDown newId now (Some c) p0 st in
            interaction sd = ModeDrawing k p0 /\ userShapes sd = userShapes st /\
            engineShapes sd = engineShapes st /\ draftShape sd = Some (with_geom s0 (GTwo k a a))).
  { unfold onPointerDown. rewrite Ht. destruct k; cbn [tool_of_kind]; rewrite Ha; cbn; auto. }
  cbn zeta in Hdown. destruct Hdown as (Hi & Hu & He & Hd).
  destruct (moves_drawing c k p0 s0 a moves _ a Hi Hd) as (Hi1 & Hu1 & He1 & _ & b' & Hd1).
  fold st1 in Hi1, Hu1, He1, Hd1.
  subst st2. unfold onPointerUp. rewrite Hi1.
  destruct (toPoint c p1) as [b|]; cbn.
  - rewrite Hd1. cbn. rewrite Hu1, Hu, He1, He. auto.
  - rewrite Hu1, He1, Hu, He. auto.
Qed.

Lemma drawing_gesture_commits_witness :
  userShapes (onPointerUp (Some sample_ctx) (mkPointer 300 250)
    (fold_left (fun st p => onPointerMove (Some sample_ctx) p st) [mkPointer 200 230; mkPointer 5000 0]
       (onPointerDown prefix_id (Fin 9) (Some sample_ctx) (mkPointer 100 200) (idle_board ToolZone))))
  = [sample_level; mkShape "zone" (Fin 9) None
                     (GTwo KZone (mkPoint (Fin 100) (Fin 200)) (mkPoint (Fin 300) (Fin 250)))].
Proof.
  destruct (drawing_gesture_commits prefix_id (Fin 9) sample_ctx KZone (idle_board ToolZone)
              (mkPointer 100 200) (mkPointer 300 250) (mkPoint (Fin 100) (Fin 200))
              [mkPointer 200 230; mkPointer 5000 0] eq_refl eq_refl) as (_ & _ & _ & H).
  exact (proj1 H).
Defined.

Lemma num_eqb_trans_r (x y z : num) :
  num_eqb x y = true -> num_eqb z x = num_eqb z y.
Proof.
  destruct x, y; cbn; try discriminate; intros H; destruct z; cbn; try reflexivity.
  apply Qeq_bool_iff in H.
  destruct (Qeq_bool q1 q) eqn:E1, (Qeq_bool q1 q0) eqn:E2; try reflexivity.
  - apply Qeq_bool_iff in E1. apply Qeq_bool_neq in E2. exfalso. apply E2. rewrite E1. exact H.
  - apply Qeq_bool_neq in E1. apply Qeq_bool_iff in E2. exfalso. apply E1. rewrite E2, H. reflexivity.
Qed.

Lemma num_eqb_gt_false (x y : num) : num_eqb x y = true -> num_gt x y = false.
Proof.
  destruct x as [a| | |], y as [b| | |]; cbn; try discriminate; try reflexivity.
  intros H. apply Qeq_bool_iff in H. apply negb_false_iff. apply Qle_bool_iff. lra.
Qed.

Lemma num_gt_eqb_compat_r (x y z : num) :
  num_eqb y z = true -> num_gt x y = num_gt x z.
Proof.
  destruct y as [a| | |], z as [b| | |]; cbn; try discriminate; intros H; destruct x as [c| | |];
    cbn; try reflexivity.
  apply Qeq_bool_iff in H. f_equal.
  destruct (Qle_bool c a) eqn:E1, (Qle_bool c b) eqn:E2; try reflexivity.
  all: first [apply Qle_bool_iff in E1 | apply Qle_bool_false in E1];
       first [apply Qle_bool_iff in E2 | apply Qle_bool_false in E2]; lra.
Qed.

Lemma num_gt_eqb_r (x y z : num) :
  num_gt y x = true -> num_eqb y z = true -> num_gt z x = true.
Proof.
  destruct y, z; cbn; try discriminate; intros H1 H2; destruct x; cbn in *; try discriminate; auto.
  apply Qeq_bool_iff in H2.
  apply negb_true_iff in H1. apply negb_true_iff.
  apply Qle_bool_false in H1.
  destruct (Qle_bool q0 q1) eqn:E; [|reflexivity].
  apply Qle_bool_iff in E. rewrite <- H2 in E. exfalso. apply (Qlt_not_le _ _ H1 E).
Qed.

Lemma last_opt_app_cons {A : Type} (l : list A) (x : A) : last_opt (l ++ [x]) = Some x.
Proof.
  induction l as [|a l IH]; [reflexivity|].
  cbn [app]. destruct l as [|b l]; [reflexivity|]. exact IH.
Qed.

Lemma times_ascending_snoc (l : list Candle) (c : Candle) :
  times_ascending (l ++ [c]) =
  times_ascending l && match last_opt l with Some x => num_gt (c_time c) (c_time x) | None => true end.
Proof.
  induction l as [|a l IH]; [reflexivity|].
  destruct l as [|b l].
  - cbn. rewrite andb_true_r. reflexivity.
  - change ((a :: b :: l) ++ [c]) with (a :: ((b :: l) ++ [c])).
    change (last_opt (a :: b :: l)) with (last_opt (b :: l)).
    cbn [times_ascending]. cbn [app] in IH |- *.
    rewrite IH. rewrite andb_assoc. reflexivity.
Qed.

Lemma times_ascending_removelast (l : list Candle) :
  times_ascending l = true ->
  times_ascending (removelast l) = true /\
  forall x y, last_opt (removelast l) = Some x -> last_opt l = Some y -> num_gt (c_time y) (c_time x) = true.
Proof.
  destruct l as [|a l] using rev_ind; [split; [reflexivity|discriminate]|].
  rewrite removelast_last, times_ascending_snoc, last_opt_app_cons.
  intros H. apply andb_prop in H as [H1 H2]. split; [exact H1|].
  intros x y Hx Hy. injection Hy as <-. rewrite Hx in H2. exact H2.
Qed.

(** [ws.onmessage] keeps the buffer strictly ascending in time when each
    tick's normalised time is later than, or equal to, the last buffered
    time: a later tick is appended and an equal one replaces the last
    candle. *)
Theorem ws_onmessage_ascending (buf : list Candle) (d : Candle) :
  times_ascending buf = true ->
  (forall last, last_opt buf = Some last ->
     num_gt (normalize_ms (c_time d)) (c_time last) = true \/
     num_eqb (c_time last) (normalize_ms (c_time d)) = true) ->
  times_ascending (ws_onmessage buf d) = true /\
  last_opt (ws_onmessage buf d) = Some (with_time d (normalize_ms (c_time d))).
Proof.
  intros Ha Hn. unfold ws_onmessage.
  destruct (last_opt buf) as [last|] eqn:El.
  - assert (Hng : num_gt (c_time last) (c_time (with_time d (normalize_ms (c_time d)))) = false).
    { cbn [c_time with_time]. destruct (Hn last eq_refl) as [H|H];
        [apply num_gt_asym, H|apply num_eqb_gt_false, H]. }
    rewrite Hng.
    destruct (num_eqb (c_time last) (c_time (with_time d (normalize_ms (c_time d))))) eqn:Eq;
      rewrite times_ascending_snoc, last_opt_app_cons; split; try reflexivity.
    + destruct (times_ascending_removelast buf Ha) as [Hr Hgt]. rewrite Hr. cbn [andb].
      destruct (last_opt (removelast buf)) as [x|] eqn:Ex; [|reflexivity].
      apply (num_gt_eqb_r _ (c_time last)); [exact (Hgt x last eq_refl El)|exact Eq].
    + rewrite Ha, El. cbn [andb].
      destruct (Hn last eq_refl) as [H|H]; [exact H|]. cbn in Eq. rewrite H in Eq. discriminate.
  - rewrite times_ascending_snoc, last_opt_app_cons, Ha, El. split; reflexivity.
Qed.

Lemma ws_onmessage_ascending_witness :
  times_ascending [sample_candle (Fin 100); sample_candle (Fin 160)] = true /\
  times_ascending (ws_onmessage [sample_candle (Fin 100); sample_candle (Fin 160)]
                     (sample_candle (Fin 170000000000))) = true.
Proof.
  split; [reflexivity|].
  apply (ws_onmessage_ascending [sample_candle (Fin 100); sample_candle (Fin 160)]
           (sample_candle (Fin 170000000000))); [reflexivity|].
  intros last Hl. injection Hl as <-. left. vm_compute. reflexivity.
Defined.

(** Two ticks whose normalised times are equal ([===]) leave the buffer as
    the second tick alone would: the second overwrites the first. *)
Theorem ws_onmessage_same_time_overwrites (buf : list Candle) (d1 d2 : Candle) :
  num_eqb (normalize_ms (c_time d1)) (normalize_ms (c_time d2)) = true ->
  ws_onmessage (ws_onmessage buf d1) d2 = ws_onmessage buf d2.
Proof.
  intros H. unfold ws_onmessage. cbn [c_time with_time].
  destruct (last_opt buf) as [last|] eqn:El.
  - rewrite (num_gt_eqb_compat_r (c_time last) _ _ H).
    destruct (num_gt (c_time last) (normalize_ms (c_time d2))) eqn:Eg.
    + rewrite El, Eg. reflexivity.
    + rewrite (num_eqb_trans_r _ _ (c_time last) H).
      destruct (num_eqb (c_time last) (normalize_ms (c_time d2)));
        rewrite last_opt_app_cons; cbn [c_time with_time];
        rewrite (num_eqb_gt_false _ _ H), H, removelast_last; reflexivity.
  - rewrite last_opt_app_cons. cbn [c_time with_time].
    rewrite (num_eqb_gt_false _ _ H), H, removelast_last. reflexivity.
Qed.

Lemma ws_onmessage_same_time_overwrites_witness :
  ws_onmessage (ws_onmessage [sample_candle (Fin 1699999940)] (sample_candle (Fin 1700000000)))
    (with_time (sample_candle (Fin 0)) (Fin 1700000000000))
  = [sample_candle (Fin 1699999940); with_time (sample_candle (Fin 0)) (Fin 1700000000)].
Proof.
  rewrite (ws_onmessage_same_time_overwrites [sample_candle (Fin 1699999940)]
             (sample_candle (Fin 1700000000)) (with_time (sample_candle (Fin 0)) (Fin 1700000000000)));
    vm_compute; reflexivity.
Defined.



Lemma build_levels_shape newId now (n : nat) (l : list EngineLevel) :
  Forall (fun e => color e = Gold /\ exists q, geom (eng_shape e) = GLevel (Fin q))
    (build_levels newId now n l).
Proof.
  revert n. induction l as [|lvl l IH]; intros n; cbn [build_levels]; [constructor|].
  destruct (lvl_price lvl) as [| | | [q| | |] | | |]; auto.
  constructor; [|apply IH]. cbn. eauto.
Qed.

Lemma build_zones_shape newId now pre col t1 t2 (n : nat) (l : list EngineZone) :
  Forall (fun e => color e = col /\ exists f t,
            geom (eng_shape e) = GTwo KZone (mkPoint t1 (Fin f)) (mkPoint t2 (Fin t)))
    (build_zones newId now pre col t1 t2 n l).
Proof.
  revert n. induction l as [|z l IH]; intros n; cbn [build_zones]; [constructor|].
  destruct (priceFrom z) as [| | | [f| | |] | | |], (priceTo z) as [| | | [t| | |] | | |]; auto.
  constructor; [|apply IH]. cbn. eauto.
Qed.




(** When the first and the last buffered candle have truthy times, every
    engine shape is either a gold horizontal level at a finite price, or a
    zone with finite price bounds spanning from the first candle's time to
    the last candle's time. *)
Theorem buildEngineShapes_anchored newId now nowSec1 nowSec2 (data : list Candle) (ann : EngineAnnotations)
    (c0 cn : Candle) :
  hd_error data = Some c0 -> last_opt data = Some cn ->
  num_truthy (c_time c0) = true -> num_truthy (c_time cn) = true ->
  Forall (fun e =>
    match geom (eng_shape e) with
    | GLevel p => color e = Gold /\ isFinite p = true
    | GTwo k a b => k = KZone /\ time a = c_time c0 /\ time b = c_time cn /\
                    isFinite (price a) = true /\ isFinite (price b) = true
    end) (buildEngineShapes newId now nowSec1 nowSec2 data ann).
Proof.
  intros H0 Hn T0 Tn. unfold buildEngineShapes.
  destruct data as [|d data]; [discriminate|]. injection H0 as ->.
  rewrite Hn, T0, Tn.
  assert (Hz : forall pre col n l, Forall (fun e =>
    match geom (eng_shape e) with
    | GLevel p => color e = Gold /\ isFinite p = true
    | GTwo k a b => k = KZone /\ time a = c_time c0 /\ time b = c_time cn /\
                    isFinite (price a) = true /\ isFinite (price b) = true
    end) (build_zones newId now pre col (c_time c0) (c_time cn) n l)).
  { intros. eapply Forall_impl; [|apply build_zones_shape].
    intros e (_ & f & t & ->). cbn. auto. }
  apply Forall_app; split; [|apply Forall_app; split; apply Hz].
  eapply Forall_impl; [|apply build_levels_shape].
  intros e (Hc & q & ->). cbn. auto.
Qed.

Lemma buildEngineShapes_anchored_witness :
  length (buildEngineShapes prefix_id (Fin 0) 1760000000 1760000000
            [candle_at 1000; candle_at 1500; candle_at 2000] mixed_annotations) = 3%nat /\
  Forall (fun e =>
    match geom (eng_shape e) with
    | GLevel p => color e = Gold /\ isFinite p = true
    | GTwo k a b => k = KZone /\ time a = Fin 1000 /\ time b = Fin 2000 /\
                    isFinite (price a) = true /\ isFinite (price b) = true
    end) (buildEngineShapes prefix_id (Fin 0) 1760000000 1760000000
            [candle_at 1000; candle_at 1500; candle_at 2000] mixed_annotations).
Proof.
  split; [reflexivity|].
  exact (buildEngineShapes_anchored prefix_id (Fin 0) 1760000000 1760000000
           [candle_at 1000; candle_at 1500; candle_at 2000] mixed_annotations
           (candle_at 1000) (candle_at 2000) eq_refl eq_refl eq_refl eq_refl).
Defined.

Lemma strip_prefix_ci_app (s rest : string) :
  strip_prefix_ci (lower_string s) (String.append s rest) = Some rest.
Proof.
  induction s as [|c s IH]; cbn; [destruct rest; reflexivity|].
  rewrite Ascii.eqb_refl. exact IH.
Qed.

(** An API base whose scheme is [http://] or [https://], in any letter
    case, gets the WebSocket scheme [ws://] or [wss://] and the rest of the
    URL is kept. *)
Theorem toWebSocketUrl_scheme (s rest : string) :
  (lower_string s = "http://" -> toWebSocketUrl (String.append s rest) = String.append "ws://" rest) /\
  (lower_string s = "https://" -> toWebSocketUrl (String.append s rest) = String.append "wss://" rest).
Proof.
  split; intros H; unfold toWebSocketUrl, replace_prefix_ci.
  - rewrite <- H, strip_prefix_ci_app. reflexivity.
  - assert (E : strip_prefix_ci "http://" (String.append s rest) = None).
    { pose proof (strip_prefix_ci_app s rest) as E. rewrite H in E.
      destruct s as [|c1 [|c2 [|c3 [|c4 [|c5 s]]]]]; try discriminate H.
      cbn in H. injection H as H1 H2 H3 H4 H5 _.
      cbn [strip_prefix_ci String.append]. rewrite H1, H2, H3, H4, H5. reflexivity. }
    rewrite E. cbv iota beta. rewrite <- H, strip_prefix_ci_app. reflexivity.
Qed.

Lemma toWebSocketUrl_scheme_witness :
  lower_string "HTTPS://" = "https://" /\
  toWebSocketUrl "HTTPS://api.example.com/" = "wss://api.example.com/".
Proof.
  split; [reflexivity|].
  exact (proj2 (toWebSocketUrl_scheme "HTTPS://" "api.example.com/") eq_refl).
Defined.

(** Converting an already converted URL changes nothing: neither [ws://]
    nor [wss://] matches the two patterns. *)
Theorem toWebSocketUrl_idempotent (s : string) :
  toWebSocketUrl (toWebSocketUrl s) = toWebSocketUrl s.
Proof.
  assert (Ht : (exists r, toWebSocketUrl s = String.append "ws://" r) \/
               (exists r, toWebSocketUrl s = String.append "wss://" r) \/
               toWebSocketUrl s = s).
  { unfold toWebSocketUrl, replace_prefix_ci.
    destruct (strip_prefix_ci "http://" s) as [r|] eqn:E1.
    - left. exists r. reflexivity.
    - destruct (strip_prefix_ci "https://" s) as [r|] eqn:E2.
      + right. left. exists r. reflexivity.
      + right. right. reflexivity. }
  destruct Ht as [[r E]|[[r E]|E]]; rewrite E; [reflexivity|reflexivity|exact E].
Qed.

Lemma str_append_assoc (a b c : string) :
  String.append a (String.append b c) = String.append (String.append a b) c.
Proof. induction a as [|x a IH]; cbn; [reflexivity|]. rewrite IH. reflexivity. Qed.

Lemma strip_trailing_slash_snoc (s : string) :
  strip_trailing_slash (String.append s "/") = s.
Proof.
  induction s as [|c s IH]; [reflexivity|].
  cbn [String.append]. cbn [strip_trailing_slash].
  destruct s as [|c' s']; [reflexivity|].
  cbn [String.append] in IH |- *. rewrite IH. reflexivity.
Qed.

(** With an API base [https://host/] (any letter case of the scheme) the
    live feed connects to [wss://host/ws/markets/<symbol>]: the trailing
    slash of the base is not doubled. *)
Theorem ws_url_https_base (s host symbol : string) :
  lower_string s = "https://" ->
  ws_url (String.append s (String.append host "/")) symbol =
  String.append "wss://" (String.append host (String.append "/ws/markets/" symbol)).
Proof.
  intros H. unfold ws_url.
  rewrite (proj2 (toWebSocketUrl_scheme s (String.append host "/")) H).
  rewrite (str_append_assoc "wss://" host "/"), strip_trailing_slash_snoc.
  symmetry. apply str_append_assoc.
Qed.

Lemma ws_url_https_base_witness :
  lower_string "https://" = "https://" /\
  ws_url "https://api.example.com/" "XAUUSD" = "wss://api.example.com/ws/markets/XAUUSD".
Proof.
  split; [reflexivity|].
  exact (ws_url_https_base "https://" "api.example.com" "XAUUSD" eq_refl).
Defined.

Lemma num_min_comm_upto (x y : num) :
  num_min x y = num_min y x \/
  exists a b, num_min x y = Fin a /\ num_min y x = Fin b /\ a == b.
Proof.
  destruct x as [a| | |], y as [b| | |]; cbn; auto.
  destruct (Qle_bool a b) eqn:E1, (Qle_bool b a) eqn:E2; cbn; auto.
  - right. exists a, b. apply Qle_bool_iff in E1, E2. repeat split. apply Qle_antisym; assumption.
  - apply Qle_bool_false in E1, E2. exfalso. apply (Qlt_irrefl a). apply (Qlt_trans _ b); assumption.
Qed.

Lemma num_max_comm_upto (x y : num) :
  num_max x y = num_max y x \/
  exists a b, num_max x y = Fin a /\ num_max y x = Fin b /\ a == b.
Proof.
  destruct x as [a| | |], y as [b| | |]; cbn; auto.
  destruct (Qle_bool a b) eqn:E1, (Qle_bool b a) eqn:E2; cbn; auto.
  - right. exists a, b. apply Qle_bool_iff in E1, E2. repeat split. apply Qle_antisym; assumption.
  - apply Qle_bool_false in E1, E2. exfalso. apply (Qlt_irrefl a). apply (Qlt_trans _ b); assumption.
Qed.

Lemma proper_num_min {B : Type} (f : num -> B) (Hf : forall a b, a == b -> f (Fin a) = f (Fin b))
    (x y : num) : f (num_min x y) = f (num_min y x).
Proof.
  destruct (num_min_comm_upto x y) as [->|(a & b & -> & -> & H)]; [reflexivity|auto].
Qed.

Lemma proper_num_max {B : Type} (f : num -> B) (Hf : forall a b, a == b -> f (Fin a) = f (Fin b))
    (x y : num) : f (num_max x y) = f (num_max y x).
Proof.
  destruct (num_max_comm_upto x y) as [->|(a & b & -> & -> & H)]; [reflexivity|auto].
Qed.

(** For a viewport whose conversions depend only on numeric values, the hit
    test of a zone depends only on its rectangle: exchanging the corners
    [a] and [b], or only their times, does not change the result. *)
Theorem hitShape_zone_corner_order (c : ToolContext) (p : Pointer) (s : UserShape) (a b : Point) :
  (forall q q', q == q' -> timeToX c (Fin q) = timeToX c (Fin q')) ->
  (forall q q', q == q' -> priceToY c (Fin q) = priceToY c (Fin q')) ->
  hitShape c p (with_geom s (GTwo KZone b a)) = hitShape c p (with_geom s (GTwo KZone a b)) /\
  hitShape c p (with_geom s (GTwo KZone (mkPoint (time b) (price a)) (mkPoint (time a) (price b))))
  = hitShape c p (with_geom s (GTwo KZone a b)).
Proof.
  intros Hx Hy. unfold hitShape; cbn [geom with_geom time price].
  rewrite (proper_num_min _ Hx (time b)), (proper_num_max _ Hx (time b)).
  rewrite (proper_num_min _ Hy (price b)), (proper_num_max _ Hy (price b)).
  split; reflexivity.
Qed.

Lemma hitShape_zone_corner_order_witness :
  hitShape plain_ctx (mkPointer 150 225) sample_zone = true /\
  hitShape plain_ctx (mkPointer 150 225)
    (with_geom sample_zone (GTwo KZone (mkPoint (Fin 300) (Fin (500 # 2))) (mkPoint (Fin 100) (Fin 200))))
  = true.
Proof.
  split; [vm_compute; reflexivity|].
  rewrite (proj1 (hitShape_zone_corner_order plain_ctx (mkPointer 150 225) sample_zone
                    (mkPoint (Fin 100) (Fin 200)) (mkPoint (Fin 300) (Fin (500 # 2)))
                    (fun q q' H => f_equal (fun r => Some r) (Qred_complete q q' H))
                    (fun q q' H => f_equal (fun r => Some r) (Qred_complete q q' H)))).
  vm_compute. reflexivity.
Defined.

(** The same for the renderer: a zone is drawn identically whichever
    corners were recorded as [a] and [b]. *)
Theorem renderShape_zone_corner_order (coords : CoordinateFns) (s : UserShape) (a b : Point)
    (engine : option EngineColor) (width : Q) (selected : bool) (style : RenderStyle) :
  (forall q q', q == q' -> cf_timeToX coords (Fin q) = cf_timeToX coords (Fin q')) ->
  (forall q q', q == q' -> cf_priceToY coords (Fin q) = cf_priceToY coords (Fin q')) ->
  renderShape coords (with_geom s (GTwo KZone b a)) engine width selected style =
  renderShape coords (with_geom s (GTwo KZone a b)) engine width selected style /\
  renderShape coords (with_geom s (GTwo KZone (mkPoint (time b) (price a)) (mkPoint (time a) (price b))))
    engine width selected style =
  renderShape coords (with_geom s (GTwo KZone a b)) engine width selected style.
Proof.
  intros Hx Hy. unfold renderShape; cbn [geom with_geom time price label].
  rewrite (proper_num_min _ Hx (time b)), (proper_num_max _ Hx (time b)).
  rewrite (proper_num_min _ Hy (price b)), (proper_num_max _ Hy (price b)).
  split; reflexivity.
Qed.

Lemma renderShape_zone_corner_order_witness :
  renderShape sample_coords
    (with_geom sample_zone (GTwo KZone (mkPoint (Fin 300) (Fin 250)) (mkPoint (Fin 100) (Fin 200))))
    None 800 false sample_style =
  renderShape sample_coords sample_zone None 800 false sample_style.
Proof.
  apply (renderShape_zone_corner_order sample_coords sample_zone
           (mkPoint (Fin 100) (Fin 200)) (mkPoint (Fin 300) (Fin 250)) None 800 false sample_style).
  - intros q q' H. unfold sample_coords. cbn [cf_timeToX cf_priceToY]. f_equal. apply Qred_complete. rewrite H. reflexivity.
  - intros q q' H. unfold sample_coords. cbn [cf_timeToX cf_priceToY]. f_equal. apply Qred_complete. rewrite H. reflexivity.
Defined.

Lemma num_min_fin (x y : num) :
  isFinite x = true -> isFinite y = true -> exists q, num_min x y = Fin q.
Proof.
  destruct x as [a| | |], y as [b| | |]; cbn; try discriminate. intros _ _.
  destruct (negb (Qle_bool a b)); eauto.
Qed.

Lemma num_max_fin (x y : num) :
  isFinite x = true -> isFinite y = true -> exists q, num_max x y = Fin q.
Proof.
  destruct x as [a| | |], y as [b| | |]; cbn; try discriminate. intros _ _.
  destruct (negb (Qle_bool b a)); eauto.
Qed.

(** With a viewport that maps every finite time and price to a pixel, a
    zone with finite corners is always drawn, as a rectangle at least one
    pixel wide and one pixel high. *)
Theorem renderShape_zone_rect (coords : CoordinateFns) (s : UserShape) (a b : Point)
    (engine : option EngineColor) (width : Q) (selected : bool) (style : RenderStyle) :
  (forall q, exists x, cf_timeToX coords (Fin q) = Some x) ->
  (forall q, exists y, cf_priceToY coords (Fin q) = Some y) ->
  geom s = GTwo KZone a b ->
  isFinite (time a) = true -> isFinite (price a) = true ->
  isFinite (time b) = true -> isFinite (price b) = true ->
  exists left top w h,
    In (RectPath left top w h) (renderShape coords s engine width selected style) /\ 1 <= w /\ 1 <= h.
Proof.
  intros Hx Hy Hg Ta Pa Tb Pb. unfold renderShape. rewrite Hg.
  destruct (num_min_fin _ _ Ta Tb) as [t1 ->], (num_max_fin _ _ Ta Tb) as [t2 ->].
  destruct (num_min_fin _ _ Pa Pb) as [p1 ->], (num_max_fin _ _ Pa Pb) as [p2 ->].
  destruct (Hx t1) as [x1 ->], (Hx t2) as [x2 ->], (Hy p1) as [y1 ->], (Hy p2) as [y2 ->].
  match goal with
  | |- context [drawZone x1 y1 x2 y2 ?st ?fl] =>
      destruct (drawZone_clamped x1 y1 x2 y2 st fl) as (l & t & w & h & Hin & Hw & Hh)
  end.
  exists l, t, w, h. split; [apply in_or_app; left; exact Hin|split; assumption].
Qed.

Lemma renderShape_zone_rect_witness :
  exists left top w h,
    In (RectPath left top w h) (renderShape sample_coords degenerate_zone (Some Green) 800 true sample_style)
    /\ 1 <= w /\ 1 <= h.
Proof.
  apply (renderShape_zone_rect sample_coords degenerate_zone
           (mkPoint (Fin 1000) (Fin 100)) (mkPoint (Fin 1000) (Fin 100)) (Some Green) 800 true sample_style);
    try reflexivity.
  - intros q. eexists. reflexivity.
  - intros q. eexists. reflexivity.
Defined.

Lemma map_id_drag (d : string) (o : UserShape) (dt dp : num) (l : list UserShape) :
  id o = d ->
  map id (map (fun s => if String.eqb (id s) d then drag_translate o dt dp else s) l) = map id l.
Proof.
  intros Ho. rewrite map_map. apply map_ext. intros s.
  destruct (String.eqb (id s) d) eqn:E; [|reflexivity].
  apply String.eqb_eq in E. rewrite drag_translate_id, Ho, E. reflexivity.
Qed.

Lemma select_step newId now ctxObj (e : PointerEv) (st : Board) :
  tool st = ToolSelect -> not_drawing (interaction st) ->
  let st1 := dispatch newId now ctxObj e st in
  tool st1 = ToolSelect /\ not_drawing (interaction st1) /\
  map id (userShapes st1) = map id (userShapes st) /\ engineShapes st1 = engineShapes st /\
  draftShape st1 = draftShape st /\ (selection_ok st -> selection_ok st1).
Proof.
  intros Ht Hn st1. subst st1.
  destruct ctxObj as [c|]; [|destruct e; cbn; auto 7].
  unfold selection_ok. destruct e as [p|p|p]; cbn [dispatch].
  - unfold onPointerDown. rewrite Ht.
    destruct (hitTest (userShapes st) c p) as [hid|]; [|cbn; auto 7].
    destruct (find (fun s => String.eqb (id s) hid) (userShapes st)) as [shape|] eqn:Ef;
      [|auto 7].
    apply find_some in Ef as [Hin _].
    cbn. repeat split; auto. intros _. apply in_map. exact Hin.
  - unfold onPointerMove. destruct (interaction st) as [|k s0|d s0 o] eqn:Ei;
      [cbn; rewrite Ei; auto 7|contradiction|].
    cbn in Hn. destruct (toPoint c s0), (toPoint c p); try solve [rewrite Ei; cbn; auto 7].
    cbn. rewrite Ei, (map_id_drag d o _ _ _ Hn). repeat split; auto.
  - unfold onPointerUp. destruct (interaction st) as [|k s0|d s0 o]; [cbn; auto 7|contradiction|cbn; auto 7].
Qed.

(** Under the select tool, starting with no drawing in progress, no stream
    of pointer events adds, removes or reorders shapes (the list of ids is
    unchanged), nor touches engine shapes or the draft; the tool stays
    [select], and a selection that names a stored shape keeps doing so. *)
Theorem select_tool_keeps_shapes newId now ctxObj (es : list PointerEv) (st : Board) :
  tool st = ToolSelect -> not_drawing (interaction st) ->
  let st' := run_events newId now ctxObj es st in
  tool st' = ToolSelect /\ map id (userShapes st') = map id (userShapes st) /\
  engineShapes st' = engineShapes st /\ draftShape st' = draftShape st /\
  (selection_ok st -> selection_ok st').
Proof.
  unfold run_events. revert st.
  induction es as [|e es IH]; intros st Ht Hn; cbn [fold_left]; [auto|].
  destruct (select_step newId now ctxObj e st Ht Hn) as (Ht1 & Hn1 & Hm1 & He1 & Hd1 & Hs1).
  destruct (IH _ Ht1 Hn1) as (Ht2 & Hm2 & He2 & Hd2 & Hs2).
  rewrite Hm2, He2, Hd2, Hm1, He1, Hd1.
  split; [exact Ht2|]. split; [reflexivity|]. split; [reflexivity|]. split; [reflexivity|].
  intros H. apply Hs2, Hs1, H.
Qed.

Lemma select_tool_keeps_shapes_witness :
  map id (userShapes (run_events prefix_id (Fin 0) (Some sample_ctx)
    [PDown (mkPointer 150 220); PMove (mkPointer 180 240); PUp (mkPointer 180 240); PDown (mkPointer 900 490)]
    select_board)) = ["lvl_1"; "zone_1"] /\
  selection_ok (run_events prefix_id (Fin 0) (Some sample_ctx)
    [PDown (mkPointer 150 220); PMove (mkPointer 180 240); PUp (mkPointer 180 240); PDown (mkPointer 900 490)]
    select_board).
Proof.
  destruct (select_tool_keeps_shapes prefix_id (Fin 0) (Some sample_ctx)
    [PDown (mkPointer 150 220); PMove (mkPointer 180 240); PUp (mkPointer 180 240); PDown (mkPointer 900 490)]
    select_board eq_refl I) as (_ & Hm & _ & _ & Hs).
  split; [exact Hm|apply Hs]. cbn. right. left. reflexivity.
Defined.

(** The millisecond heuristic divides at most once: a finite time ends up
    at most 2e9 (the seconds range) exactly when it was at most 2e12, so a
    time in microseconds stays out of the seconds range. *)
Theorem normalize_ms_range (q : Q) :
  exists r, normalize_ms (Fin q) = Fin r /\ (r <= 2000000000 <-> q <= 2000000000000).
Proof.
  unfold normalize_ms, num_gt.
  destruct (Qle_bool q 2000000000) eqn:E; cbn [negb].
  - apply Qle_bool_iff in E. exists q. split; [reflexivity|]. split; intros; lra.
  - apply Qle_bool_false in E. cbn [num_div].
    exists (Qred (q / 1000)). split; [reflexivity|].
    rewrite Qred_correct.
    assert (Hd : q / 1000 == q * (1 # 1000)) by reflexivity.
    rewrite Hd. split; intros; lra.
Qed.

(** With an empty candle buffer, every engine zone spans from the first
    reading of the clock minus an hour, [nowSec() - 3600], to the second
    reading, [nowSec()]. *)
Theorem buildEngineShapes_no_candles newId now nowSec1 nowSec2 (ann : EngineAnnotations) :
  Forall (fun e =>
    match geom (eng_shape e) with
    | GLevel _ => True
    | GTwo _ a b => time a = num_of_Z (nowSec1 - 3600) /\ time b = num_of_Z nowSec2
    end) (buildEngineShapes newId now nowSec1 nowSec2 [] ann).
Proof.
  unfold buildEngineShapes. cbn [last_opt].
  assert (Hz : forall pre col n l, Forall (fun e =>
    match geom (eng_shape e) with
    | GLevel _ => True
    | GTwo _ a b => time a = num_of_Z (nowSec1 - 3600) /\ time b = num_of_Z nowSec2
    end) (build_zones newId now pre col (num_of_Z (nowSec1 - 3600)) (num_of_Z nowSec2) n l)).
  { intros. eapply Forall_impl; [|apply build_zones_shape].
    intros e (_ & f & t & ->). cbn. auto. }
  apply Forall_app; split; [|apply Forall_app; split; apply Hz].
  eapply Forall_impl; [|apply build_levels_shape].
  intros e (_ & q & ->). exact I.
Qed.

Lemma num_gt_sub_zero (x y : num) :
  isFinite x = true -> isFinite y = true -> num_gt (num_sub x y) (Fin 0) = num_gt x y.
Proof.
  destruct x as [a| | |], y as [b| | |]; cbn [isFinite]; try discriminate. intros _ _.
  unfold num_sub, num_add, num_neg, num_gt. f_equal.
  destruct (Qle_bool (Qred (a + Qred (- b))) 0) eqn:E1, (Qle_bool a b) eqn:E2; try reflexivity.
  all: first [apply Qle_bool_iff in E1 | apply Qle_bool_false in E1];
       first [apply Qle_bool_iff in E2 | apply Qle_bool_false in E2];
       rewrite !Qred_correct in E1; lra.
Qed.

Lemma insert_by_time_sorted_cons (c : Candle) (l : list Candle) :
  isFinite (c_time c) = true -> Forall (fun y => isFinite (c_time y) = true) l ->
  forall x, times_nondecreasing (x :: l) = true -> num_gt (c_time x) (c_time c) = false ->
  times_nondecreasing (x :: insert_by_time c l) = true.
Proof.
  intros Hc. induction l as [|y r IH]; intros Hl x Hs Hxc.
  - cbn. rewrite Hxc. reflexivity.
  - inversion Hl as [|? ? Hy Hr]; subst.
    cbn [insert_by_time]. rewrite (num_gt_sub_zero _ _ Hc Hy).
    change (times_nondecreasing (x :: y :: r))
      with (negb (num_gt (c_time x) (c_time y)) && times_nondecreasing (y :: r)) in Hs.
    apply andb_prop in Hs as [Hxy Hs].
    destruct (num_gt (c_time c) (c_time y)) eqn:E.
    + change (times_nondecreasing (x :: y :: insert_by_time c r))
        with (negb (num_gt (c_time x) (c_time y)) && times_nondecreasing (y :: insert_by_time c r)).
      rewrite Hxy. apply IH; [exact Hr|exact Hs|apply num_gt_asym; exact E].
    + change (times_nondecreasing (x :: c :: y :: r))
        with (negb (num_gt (c_time x) (c_time c)) && (negb (num_gt (c_time c) (c_time y)) &&
              times_nondecreasing (y :: r))).
      rewrite Hxc, E, Hs. reflexivity.
Qed.

Lemma insert_by_time_sorted (c : Candle) (l : list Candle) :
  isFinite (c_time c) = true -> Forall (fun y => isFinite (c_time y) = true) l ->
  times_nondecreasing l = true -> times_nondecreasing (insert_by_time c l) = true.
Proof.
  intros Hc Hl Hs. destruct l as [|y r]; [reflexivity|].
  inversion Hl as [|? ? Hy Hr]; subst.
  cbn [insert_by_time]. rewrite (num_gt_sub_zero _ _ Hc Hy).
  destruct (num_gt (c_time c) (c_time y)) eqn:E.
  - apply insert_by_time_sorted_cons; auto. apply num_gt_asym. exact E.
  - change (times_nondecreasing (c :: y :: r))
      with (negb (num_gt (c_time c) (c_time y)) && times_nondecreasing (y :: r)).
    rewrite E. exact Hs.
Qed.

Lemma insert_by_time_perm (c : Candle) (l : list Candle) : Permutation (insert_by_time c l) (c :: l).
Proof.
  induction l as [|x r IH]; cbn [insert_by_time]; [reflexivity|].
  destruct (num_gt _ _); [|reflexivity].
  rewrite IH. apply perm_swap.
Qed.

Lemma sort_by_time_perm (l : list Candle) : Permutation (sort_by_time l) l.
Proof.
  induction l as [|x r IH]; cbn [sort_by_time]; [reflexivity|].
  rewrite insert_by_time_perm, IH. reflexivity.
Qed.

Lemma sort_by_time_sorted (l : list Candle) :
  Forall (fun y => isFinite (c_time y) = true) l -> times_nondecreasing (sort_by_time l) = true.
Proof.
  induction l as [|x r IH]; intros Hl; [reflexivity|].
  inversion Hl as [|? ? Hx Hr]; subst. cbn [sort_by_time].
  apply insert_by_time_sorted; [exact Hx| |exact (IH Hr)].
  apply (Permutation_Forall (Permutation_sym (sort_by_time_perm r))). exact Hr.
Qed.

(** When every formatted time is finite, [fetchData] hands the chart and
    the candle buffer every candle of the response, in non-decreasing time
    order. *)
Theorem fetchData_sorted (parse_ms : string -> num) (data : list RawCandle) :
  Forall (fun d => isFinite (fetch_time parse_ms (r_time d)) = true) data ->
  times_nondecreasing (fetchData_candles parse_ms data) = true /\
  Permutation (fetchData_candles parse_ms data) (map (format_candle parse_ms) data).
Proof.
  intros H. unfold fetchData_candles. split; [|apply sort_by_time_perm].
  apply sort_by_time_sorted. apply Forall_map. exact H.
Qed.

Lemma fetchData_sorted_witness :
  fetchData_candles (fun _ => Fin 1700000060000)
    [raw_at (TNum (Fin 1700000120)); raw_at (TNum (Fin 1700000000000)); raw_at (TStr "2023-11-14T22:14:20Z")]
  = [candle_at 1700000000; candle_at 1700000060; candle_at 1700000120] /\
  times_nondecreasing (fetchData_candles (fun _ => Fin 1700000060000)
    [raw_at (TNum (Fin 1700000120)); raw_at (TNum (Fin 1700000000000)); raw_at (TStr "2023-11-14T22:14:20Z")])
  = true.
Proof.
  split; [vm_compute; reflexivity|].
  apply (fetchData_sorted (fun _ => Fin 1700000060000)
    [raw_at (TNum (Fin 1700000120)); raw_at (TNum (Fin 1700000000000)); raw_at (TStr "2023-11-14T22:14:20Z")]).
  repeat constructor.
Defined.

Lemma level_step newId now ctxObj (e : PointerEv) (st : Board) :
  tool st = ToolLevel -> interaction st = ModeNone ->
  let st1 := dispatch newId now ctxObj e st in
  tool st1 = ToolLevel /\ interaction st1 = ModeNone /\
  engineShapes st1 = engineShapes st /\ draftShape st1 = draftShape st /\
  exists added, userShapes st1 = userShapes st ++ added /\
    Forall (fun s => label s = None /\ exists pr, geom s = GLevel pr) added /\
    (length added <= (if is_down e then 1 else 0))%nat.
Proof.
  intros Ht Hi st1. subst st1.
  destruct ctxObj as [c|].
  2:{ destruct e; cbn; repeat split; auto; exists []; rewrite app_nil_r; repeat split; auto. }
  destruct e as [p|p|p]; cbn [dispatch is_down].
  - unfold onPointerDown. rewrite Ht.
    destruct (yToPrice c (py p)) as [pr|].
    + cbn. repeat split; auto.
      eexists. split; [reflexivity|]. split; [|cbn; lia].
      constructor; [cbn; eauto|constructor].
    + repeat split; auto. exists []. rewrite app_nil_r. repeat split; auto.
  - unfold onPointerMove. rewrite Hi. repeat split; auto.
    exists []. rewrite app_nil_r. repeat split; auto.
  - unfold onPointerUp. rewrite Hi. cbn. repeat split; auto.
    exists []. rewrite app_nil_r. repeat split; auto.
Qed.

(** Under the level tool, starting idle, a stream of pointer events only
    appends shapes to the store: unlabelled horizontal levels, at most one
    per pointer-down; nothing is moved, removed or drafted and the board
    stays idle. *)
Theorem level_tool_appends_levels newId now ctxObj (es : list PointerEv) (st : Board) :
  tool st = ToolLevel -> interaction st = ModeNone ->
  let st' := run_events newId now ctxObj es st in
  interaction st' = ModeNone /\ engineShapes st' = engineShapes st /\ draftShape st' = draftShape st /\
  exists added, userShapes st' = userShapes st ++ added /\
    Forall (fun s => label s = None /\ exists pr, geom s = GLevel pr) added /\
    (length added <= length (filter is_down es))%nat.
Proof.
  unfold run_events. revert st.
  induction es as [|e es IH]; intros st Ht Hi; cbn [fold_left filter].
  - repeat split; auto. exists []. rewrite app_nil_r. repeat split; auto.
  - destruct (level_step newId now ctxObj e st Ht Hi) as (Ht1 & Hi1 & He1 & Hd1 & a1 & Hu1 & Hf1 & Hl1).
    destruct (IH _ Ht1 Hi1) as (Hi2 & He2 & Hd2 & a2 & Hu2 & Hf2 & Hl2).
    split; [exact Hi2|]. rewrite He2, Hd2, He1, Hd1. split; [reflexivity|]. split; [reflexivity|].
    exists (a1 ++ a2). rewrite Hu2, Hu1, app_assoc. split; [reflexivity|].
    split; [apply Forall_app; split; assumption|].
    rewrite length_app. destruct (is_down e); cbn [length]; lia.
Qed.

Lemma level_tool_appends_levels_witness :
  map id (userShapes (run_events prefix_id (Fin 7) (Some level_ctx)
    [PDown (mkPointer 10 40); PMove (mkPointer 10 60); PUp (mkPointer 10 60); PDown (mkPointer 10 90)]
    (idle_board ToolLevel))) = ["lvl_1"; "lvl"; "lvl"] /\
  exists added, userShapes (run_events prefix_id (Fin 7) (Some level_ctx)
    [PDown (mkPointer 10 40); PMove (mkPointer 10 60); PUp (mkPointer 10 60); PDown (mkPointer 10 90)]
    (idle_board ToolLevel)) = [sample_level] ++ added /\ (length added <= 2)%nat.
Proof.
  split; [reflexivity|].
  destruct (level_tool_appends_levels prefix_id (Fin 7) (Some level_ctx)
    [PDown (mkPointer 10 40); PMove (mkPointer 10 60); PUp (mkPointer 10 60); PDown (mkPointer 10 90)]
    (idle_board ToolLevel) eq_refl eq_refl) as (_ & _ & _ & added & Hu & _ & Hl).
  exists added. split; [exact Hu|exact Hl].
Defined.

(** A level's label is drawn at y = max(14, y - 8): never above the
    14-pixel line at the top of the canvas. *)
Theorem renderShape_level_label_top (coords : CoordinateFns) (s : UserShape) (pr : num)
    (engine : option EngineColor) (width : Q) (selected : bool) (style : RenderStyle)
    (t : string) (x y : Q) :
  geom s = GLevel pr ->
  In (FillText t x y) (renderShape coords s engine width selected style) ->
  x == 10 /\ 14 <= y.
Proof.
  intros Hg. unfold renderShape. rewrite Hg.
  destruct (cf_priceToY coords pr) as [y0|]; [|intros []].
  intros H. apply in_app_or in H as [H|H].
  - cbn in H. repeat (destruct H as [H|H]; [discriminate|]). contradiction.
  - destruct (label s) as [l|]; [|contradiction].
    destruct (String.eqb l ""); [contradiction|].
    cbn in H. repeat (destruct H as [H|H]; [try discriminate|]); try contradiction.
    injection H as _ <- <-. split; [reflexivity|]. unfold Qmax'. Qle_bool_cases; lra.
Qed.

Lemma renderShape_level_label_top_witness :
  In (FillText "R1" 10 14)
     (renderShape sample_coords (mkShape "lvl_2" (Fin 1) (Some "R1") (GLevel (Fin 4))) None 800 false sample_style)
  /\ 10 == 10 /\ 14 <= 14.
Proof.
  assert (H : In (FillText "R1" 10 14)
     (renderShape sample_coords (mkShape "lvl_2" (Fin 1) (Some "R1") (GLevel (Fin 4))) None 800 false sample_style)).
  { vm_compute. right; right; right; right; right; right; right; right; right; left. reflexivity. }
  split; [exact H|].
  exact (renderShape_level_label_top sample_coords (mkShape "lvl_2" (Fin 1) (Some "R1") (GLevel (Fin 4)))
           (Fin 4) None 800 false sample_style "R1" 10 14 eq_refl H).
Defined.

(** A shape whose label is absent or the empty string is drawn without
    any text: [renderShape] emits no [fillText] call for it. *)
Theorem renderShape_no_label_no_text (coords : CoordinateFns) (s : UserShape)
    (engine : option EngineColor) (width : Q) (selected : bool) (style : RenderStyle)
    (t : string) (x y : Q) :
  label s = None \/ label s = Some "" ->
  ~ In (FillText t x y) (renderShape coords s engine width selected style).
Proof.
  intros Hl. unfold renderShape.
  destruct (geom s) as [pr | [|] a b].
  - destruct (cf_priceToY coords pr).
    all: try (destruct Hl as [-> | ->]); cbn; intuition discriminate.
  - destruct (cf_timeToX coords (time a)), (cf_priceToY coords (price a)),
      (cf_timeToX coords (time b)), (cf_priceToY coords (price b)).
    all: try (destruct Hl as [-> | ->]); cbn; intuition discriminate.
  - destruct (cf_timeToX coords (num_min (time a) (time b))),
      (cf_timeToX coords (num_max (time a) (time b))),
      (cf_priceToY coords (num_min (price a) (price b))),
      (cf_priceToY coords (num_max (price a) (price b))).
    all: try (destruct Hl as [-> | ->]); cbn; intuition discriminate.
Qed.

Lemma renderShape_no_label_no_text_witness :
  In (FillText "Z" 20 38)
     (renderShape sample_coords
        (mkShape "zn_1" (Fin 1) (Some "Z") (GTwo KZone (mkPoint (Fin 100) (Fin 40)) (mkPoint (Fin 200) (Fin 60))))
        None 800 false sample_style) /\
  ~ In (FillText "" 20 38)
     (renderShape sample_coords
        (mkShape "zn_1" (Fin 1) (Some "") (GTwo KZone (mkPoint (Fin 100) (Fin 40)) (mkPoint (Fin 200) (Fin 60))))
        None 800 false sample_style).
Proof.
  split.
  - vm_compute. do 7 right. do 3 right. left. reflexivity.
  - apply (renderShape_no_label_no_text sample_coords
        (mkShape "zn_1" (Fin 1) (Some "") (GTwo KZone (mkPoint (Fin 100) (Fin 40)) (mkPoint (Fin 200) (Fin 60))))
        None 800 false sample_style "" 20 38).
    right. reflexivity.
Defined.
